(** * Weekly return statistics and price projection

    A shallow embedding of the analytical core of the stock research
    application: [utils/stats.py] (calculate_statistics,
    format_large_number) and [data/calculator.py]
    (calculate_weekly_returns, get_timeframe_data,
    calculate_multi_timeframe_stats, predict_future_week_price,
    predict_current_week_price).

    Conventions of the embedding.

    - A float is a value of [f64]: a finite value carried as an exact
      rational, an infinity or NaN.  Rounding, overflow and the sign of
      zero are not represented; every other IEEE rule the code meets
      (division by zero, NaN propagation, inf - inf) is written out.
    - A Python exception is the [Raise] branch of [result].
    - A dict is a [gmap string pyval]; the dict that
      calculate_multi_timeframe_stats fills is kept as an association list
      in insertion order.
    - A price DataFrame is the list of its rows (index date, Close), in the
      order of the frame; [pd.DataFrame()] and an empty selection are both
      the empty list.  Dates are proleptic Gregorian ordinals (day 1 is
      0001-01-01, Python's [toordinal]).
    - The three pandas/numpy behaviours that depend on the installed
      version or platform are parameters: [Timestamp - DateOffset(years)],
      the default fill of [pct_change], and [sqrt]. *)

From Stdlib Require Import ZArith QArith Qpower Lia Lqa Bool.
From stdpp Require Import gmap strings list sorting pretty.

Local Open Scope Z_scope.

(** ** Exceptions *)

Inductive exn : Type :=
  | KeyError (key : string)
  | ZeroDivisionError
  | TypeError
  | OverflowError
  | OutOfBoundsDatetime.

Inductive result (A : Type) : Type :=
  | Ok (a : A)
  | Raise (e : exn).
Arguments Ok {A} a.
Arguments Raise {A} e.

#[global] Instance result_ret : MRet result := fun A a => Ok a.

#[global] Instance result_bind : MBind result := fun A B k m =>
  match m with
  | Ok a => k a
  | Raise e => Raise e
  end.

(** ** Floats *)

Inductive f64 : Type :=
  | Fin (q : Q)
  | Inf (neg : bool)
  | NaN.

Definition isna (x : f64) : bool :=
  match x with NaN => true | _ => false end.

Definition notna (x : f64) : bool := negb (isna x).

Definition fneg (x : f64) : f64 :=
  match x with
  | Fin q => Fin (- q)
  | Inf s => Inf (negb s)
  | NaN => NaN
  end.

Definition fadd (x y : f64) : f64 :=
  match x, y with
  | Fin a, Fin b => Fin (a + b)
  | Fin _, Inf s => Inf s
  | Inf s, Fin _ => Inf s
  | Inf s, Inf t => if eqb s t then Inf s else NaN
  | _, _ => NaN
  end.

Definition fsub (x y : f64) : f64 := fadd x (fneg y).

(** [inf * q] and [inf / q] for a finite [q]: the sign follows [q]. *)
Definition inf_scaled (s : bool) (q : Q) : f64 :=
  match (q ?= 0)%Q with
  | Gt => Inf s
  | Lt => Inf (negb s)
  | Eq => NaN
  end.

Definition fmul (x y : f64) : f64 :=
  match x, y with
  | Fin a, Fin b => Fin (a * b)
  | Fin a, Inf s => inf_scaled s a
  | Inf s, Fin b => inf_scaled s b
  | Inf s, Inf t => Inf (xorb s t)
  | _, _ => NaN
  end.

(** IEEE division, as numpy performs it: no exception, [x/0] is an
    infinity of the sign of [x] and [0/0] is NaN. *)
Definition fdiv (x y : f64) : f64 :=
  match x, y with
  | Fin a, Fin b =>
      if Qeq_bool b 0 then inf_scaled false a else Fin (a / b)
  | Fin _, Inf _ => Fin 0
  | Inf s, Fin b => if Qeq_bool b 0 then Inf s else inf_scaled s b
  | _, _ => NaN
  end.

(** Python's [float / float]: a zero divisor raises. *)
Definition py_truediv (x y : f64) : result f64 :=
  match y with
  | Fin b => if Qeq_bool b 0 then Raise ZeroDivisionError else Ok (fdiv x y)
  | _ => Ok (fdiv x y)
  end.

(** [x ** n] for an integer [n >= 0]. *)
Definition fpow (x : f64) (n : Z) : f64 :=
  match x with
  | Fin q => Fin (q ^ n)
  | Inf s => if n =? 0 then Fin 1 else Inf (s && Z.odd n)
  | NaN => if n =? 0 then Fin 1 else NaN
  end.

Definition fle (x y : f64) : bool :=
  match x, y with
  | Fin a, Fin b => Qle_bool a b
  | Fin _, Inf s => negb s
  | Inf s, Fin _ => s
  | Inf s, Inf t => s || negb t
  | _, _ => false
  end.

Definition fmin (x y : f64) : f64 := if fle x y then x else y.
Definition fmax (x y : f64) : f64 := if fle y x then x else y.

Definition fsum (l : list f64) : f64 := foldl fadd (Fin 0) l.

Definition of_int (n : Z) : f64 := Fin (inject_Z n).

(** ** Dates *)

(** [date.weekday()]: Monday is 0, Friday is 4, Sunday is 6. *)
Definition weekday (d : Z) : Z := (d + 6) `mod` 7.

Definition is_leap (y : Z) : bool :=
  (y `mod` 4 =? 0) && (negb (y `mod` 100 =? 0) || (y `mod` 400 =? 0)).

Definition days_in_month (y m : Z) : Z :=
  if m =? 2 then (if is_leap y then 29 else 28)
  else if (m =? 4) || (m =? 6) || (m =? 9) || (m =? 11) then 30
  else 31.

Definition days_before_year (y : Z) : Z :=
  let p := y - 1 in p * 365 + p / 4 - p / 100 + p / 400.

Fixpoint days_before_month_from (y : Z) (m : nat) : Z :=
  match m with
  | O => 0
  | S k => days_before_month_from y k + days_in_month y (Z.of_nat (S k))
  end.

(** Days of year [y] before the first of month [m]. *)
Definition days_before_month (y m : Z) : Z :=
  days_before_month_from y (Z.to_nat (m - 1)).

Definition ymd2ord (y m d : Z) : Z :=
  days_before_year y + days_before_month y m + d.

(** The month holding the [n]-th day (from 0) of year [y], searched
    from January, with the days left over in that month. *)
Fixpoint month_of_yday (y : Z) (fuel : nat) (m n : Z) : Z * Z :=
  match fuel with
  | O => (m, n)
  | S k =>
      if n <? days_in_month y m then (m, n)
      else month_of_yday y k (m + 1) (n - days_in_month y m)
  end.

Definition ord2ymd (ordinal : Z) : Z * Z * Z :=
  let n := ordinal - 1 in
  let n400 := n / 146097 in
  let n := n `mod` 146097 in
  let n100 := n / 36524 in
  let n := n `mod` 36524 in
  let n4 := n / 1461 in
  let n := n `mod` 1461 in
  let n1 := n / 365 in
  let n := n `mod` 365 in
  let year := n400 * 400 + 1 + n100 * 100 + n4 * 4 + n1 in
  if (n1 =? 4) || (n100 =? 4) then (year - 1, 12, 31)
  else
    let '(m, r) := month_of_yday year 11 1 n in
    (year, m, r + 1).

Definition MINYEAR : Z := 1.
Definition MAXYEAR : Z := 9999.
Definition MAXORDINAL : Z := 3652059.

(** A [datetime.datetime]: the date as an ordinal and the time of day in
    microseconds. *)
Record datetime : Type := mk_datetime { dt_ordinal : Z; dt_micros : Z }.

(** [timedelta(days=n)]. *)
Definition timedelta_days (n : Z) : result Z :=
  if (Z.abs n <=? 999999999) then Ok n else Raise OverflowError.

(** [datetime + timedelta]: the time of day is kept, the date must stay
    within years 1 to 9999. *)
Definition datetime_add (t : datetime) (days : Z) : result datetime :=
  let o := dt_ordinal t + days in
  if (1 <=? o) && (o <=? MAXORDINAL)
  then Ok (mk_datetime o (dt_micros t))
  else Raise OverflowError.

Definition datetime_le (a b : datetime) : Prop :=
  dt_ordinal a < dt_ordinal b \/
  (dt_ordinal a = dt_ordinal b /\ dt_micros a <= dt_micros b).

Definition month_name (m : Z) : string :=
  match m with
  | 1 => "January" | 2 => "February" | 3 => "March" | 4 => "April"
  | 5 => "May" | 6 => "June" | 7 => "July" | 8 => "August"
  | 9 => "September" | 10 => "October" | 11 => "November"
  | _ => "December"
  end.

Definition two_digits (n : Z) : string :=
  if n <? 10 then "0" +:+ pretty n else pretty n.

(** [strftime('%B %d, %Y')]. *)
Definition strftime_B_d_Y (t : datetime) : string :=
  let '(y, m, d) := ord2ymd (dt_ordinal t) in
  month_name m +:+ " " +:+ two_digits d +:+ ", " +:+ pretty y.

(** [Timestamp - DateOffset(years=n)] by the calendar: the same month and
    day [n] years earlier, the day clipped to the length of the month. *)
Definition minus_years (d years : Z) : result Z :=
  let '(y, m, dd) := ord2ymd d in
  let y' := y - years in
  if (MINYEAR <=? y') && (y' <=? MAXYEAR)
  then Ok (ymd2ord y' m (Z.min dd (days_in_month y' m)))
  else Raise OutOfBoundsDatetime.

(** ** Python values and dicts *)

Inductive pyval : Type :=
  | VFloat (x : f64)
  | VInt (n : Z)
  | VStr (s : string)
  | VTimestamp (d : Z)
  | VDatetime (t : datetime).

(** A statistics or projection dict. *)
Abbreviation dict := (gmap string pyval).

(** [d[k]]. *)
Definition getitem (d : dict) (k : string) : result pyval :=
  match d !! k with
  | Some v => Ok v
  | None => Raise (KeyError k)
  end.

(** The float an arithmetic operand stands for: a float, or an int
    converted; a string or a date in arithmetic with a number raises. *)
Definition as_float (v : pyval) : result f64 :=
  match v with
  | VFloat x => Ok x
  | VInt n => Ok (of_int n)
  | _ => Raise TypeError
  end.

(** ** Frames and series *)

(** A row of a price frame: index date and Close.  The same shape serves
    for the weekly series (week-end date, value). *)
Abbreviation frame := (list (Z * f64)).

Definition index_max (df : frame) : Z :=
  match df with
  | [] => 0
  | r :: rest => foldl (fun m x => Z.max m x.1) r.1 rest
  end.

Definition index_min (df : frame) : Z :=
  match df with
  | [] => 0
  | r :: rest => foldl (fun m x => Z.min m x.1) r.1 rest
  end.

(** The Friday that closes the week of [d] ([W-FRI], bins closed and
    labelled on the right). *)
Definition week_end (d : Z) : Z := d + (4 - weekday d) `mod` 7.

(** The labels of the weekly bins: every Friday from the week of the first
    date to the week of the last one. *)
Definition week_labels (df : frame) : list Z :=
  let first := week_end (index_min df) in
  let last := week_end (index_max df) in
  map (fun i => first + 7 * Z.of_nat i)
      (seq 0 (Z.to_nat ((last - first) / 7 + 1))).

(** [.last()] of one bin: the non-null Close of the latest date within
    [(label - 7, label]], the later row winning among equal dates; NaN for
    a bin without such a row. *)
Definition pick_later (label : Z) (best : option (Z * f64)) (row : Z * f64)
  : option (Z * f64) :=
  if (label - 7 <? row.1) && (row.1 <=? label) && notna row.2 then
    match best with
    | Some b => if b.1 <=? row.1 then Some row else best
    | None => Some row
    end
  else best.

Definition bin_last (df : frame) (label : Z) : f64 :=
  match foldl (pick_later label) None df with
  | Some r => r.2
  | None => NaN
  end.

(** [data['Close'].resample('W-FRI', label='right', closed='right').last()] *)
Definition resample_last (df : frame) : frame :=
  map (fun label => (label, bin_last df label)) (week_labels df).

(** Forward fill: each NaN takes the last value seen before it. *)
Fixpoint ffill_from (prev : f64) (l : frame) : frame :=
  match l with
  | [] => []
  | (d, x) :: rest =>
      let v := if isna x then prev else x in
      (d, v) :: ffill_from v rest
  end.

Definition ffill (l : frame) : frame := ffill_from NaN l.

(** [data / data.shift(1) - 1]: the first row has no predecessor. *)
Fixpoint ratio_from (prev : f64) (l : frame) : frame :=
  match l with
  | [] => []
  | (d, x) :: rest =>
      (d, fsub (fdiv x prev) (Fin 1)) :: ratio_from x rest
  end.

(** [Series.pct_change()]; [pad] says whether the default fill method of
    the installed pandas forward-fills first. *)
Definition pct_change (pad : bool) (l : frame) : frame :=
  ratio_from NaN (if pad then ffill l else l).

Definition dropna (l : frame) : frame :=
  filter (fun r => notna r.2 = true) l.

Definition scale (c : f64) (l : frame) : frame :=
  map (fun r => (r.1, fmul r.2 c)) l.

(** [Series.mean()], [.min()], [.max()], [.std()]: NaN entries are
    skipped; with nothing left the result is NaN. *)
Definition series_mean (l : list f64) : f64 :=
  match filter (fun x => notna x = true) l with
  | [] => NaN
  | valid => fdiv (fsum valid) (of_int (Z.of_nat (length valid)))
  end.

Definition series_min (l : list f64) : f64 :=
  match filter (fun x => notna x = true) l with
  | [] => NaN
  | x :: rest => foldl fmin x rest
  end.

Definition series_max (l : list f64) : f64 :=
  match filter (fun x => notna x = true) l with
  | [] => NaN
  | x :: rest => foldl fmax x rest
  end.

Definition fsqrt (sqrt : Q -> Q) (x : f64) : f64 :=
  match x with
  | Fin q => if Qle_bool 0 q then Fin (sqrt q) else NaN
  | Inf false => Inf false
  | _ => NaN
  end.

Definition sq_dev (avg x : f64) : f64 :=
  let d := fsub avg x in fmul d d.

(** One delta degree of freedom: the squared deviations from the mean are
    summed and divided by [count - 1]; with fewer than two values the
    divisor, hence the result, is NaN. *)
Definition series_std (sqrt : Q -> Q) (l : list f64) : f64 :=
  let valid := filter (fun x => notna x = true) l in
  let count := Z.of_nat (length valid) in
  if count <=? 1 then NaN
  else
    let avg := fdiv (fsum valid) (of_int count) in
    fsqrt sqrt (fdiv (fsum (map (sq_dev avg) valid)) (of_int (count - 1))).

(** [key in d] and [bool(d)]. *)
Definition contains (d : dict) (k : string) : bool :=
  match d !! k with Some _ => true | None => false end.

Definition truthy (d : dict) : bool := negb (Nat.eqb (size d) 0).

(** The dict that collects one entry per timeframe, in insertion order.
    Assigning to a key that is present keeps its position. *)
Fixpoint setitem (results : list (string * dict)) (k : string) (v : dict)
  : list (string * dict) :=
  match results with
  | [] => [(k, v)]
  | (k', v') :: rest =>
      if String.eqb k' k then (k', v) :: rest
      else (k', v') :: setitem rest k v
  end.

Fixpoint getlabel (results : list (string * dict)) (k : string)
  : option dict :=
  match results with
  | [] => None
  | (k', v') :: rest => if String.eqb k' k then Some v' else getlabel rest k
  end.

(** A [for] loop whose body may raise. *)
Fixpoint for_each {A S : Type} (body : S -> A -> result S) (s : S)
  (l : list A) : result S :=
  match l with
  | [] => Ok s
  | x :: rest => s' ← body s x; for_each body s' rest
  end.

Section Calculator.

(** [Timestamp - pd.DateOffset(years=n)]; it may raise when the date
    leaves the range of the index type. *)
Variable date_offset_years : Z -> Z -> result Z.
(** Whether [pct_change] forward-fills by default. *)
Variable pct_change_pad : bool.
(** The square root of the platform. *)
Variable np_sqrt : Q -> Q.

(** ** utils/stats.py *)

Definition calculate_statistics (returns : list f64) : dict :=
  match returns with
  | [] => ∅
  | _ =>
      <["average" := VFloat (series_mean returns)]>
      (<["minimum" := VFloat (series_min returns)]>
      (<["maximum" := VFloat (series_max returns)]>
      (<["std_dev" := VFloat (series_std np_sqrt returns)]>
      (<["count" := VInt (Z.of_nat (length returns))]> ∅))))
  end.

(** ** data/calculator.py *)

Definition calculate_weekly_returns (data : frame) : frame :=
  match data with
  | [] => []
  | _ =>
      let weekly_data := resample_last data in
      scale (Fin 100) (dropna (pct_change pct_change_pad weekly_data))
  end.

Definition get_timeframe_data (full_data : frame) (years : option Z)
  : result frame :=
  match full_data with
  | [] => Ok []
  | _ =>
      match years with
      | None => Ok full_data
      | Some years =>
          let latest_date := index_max full_data in
          start_date ← date_offset_years latest_date years;
          Ok (filter (fun r => start_date <= r.1) full_data)
      end
  end.

Definition timeframes : list (string * option Z) :=
  [("max", None); ("10yr", Some 10); ("5yr", Some 5); ("3yr", Some 3);
   ("1yr", Some 1)].

(** The period-specific fields added to a non-empty record. *)
Definition add_period_info (period_data : frame) (stats : dict) : dict :=
  <["years_of_data" :=
      VFloat (fdiv (of_int (Z.of_nat (length period_data))) (of_int 252))]>
  (<["data_end" := VTimestamp (index_max period_data)]>
  (<["data_start" := VTimestamp (index_min period_data)]> stats)).

(** The body of the loop over the timeframes. *)
Definition timeframe_body (full_data : frame)
    (results : list (string * dict)) (tf : string * option Z)
  : result (list (string * dict)) :=
  let '(period_name, years) := tf in
  period_data ← get_timeframe_data full_data years;
  match period_data with
  | [] => Ok results
  | _ =>
      match calculate_weekly_returns period_data with
      | [] => Ok results
      | weekly_returns =>
          let stats := calculate_statistics (map snd weekly_returns) in
          let stats :=
            if truthy stats then add_period_info period_data stats
            else stats in
          Ok (setitem results period_name stats)
      end
  end.

Definition calculate_multi_timeframe_stats (full_data : frame)
  : result (list (string * dict)) :=
  for_each (timeframe_body full_data) [] timeframes.

End Calculator.

(** One scenario: [current_price * ((1 + stats[key] / 100) ** weeks_ahead)] *)
Definition compound (current_price : f64) (stats : dict) (key : string)
    (weeks_ahead : Z) : result f64 :=
  v ← getitem stats key;
  rate ← as_float v;
  Ok (fmul current_price
        (fpow (fadd (Fin 1) (fdiv rate (Fin 100))) weeks_ahead)).

(** [((price / current_price) - 1) * 100] *)
Definition total_change (price current_price : f64) : result f64 :=
  ratio ← py_truediv price current_price;
  Ok (fmul (fsub ratio (Fin 1)) (Fin 100)).

(** [today] stands for the value [datetime.now()] returns. *)
Definition predict_future_week_price (today : datetime)
    (current_price : f64) (stats : dict) (weeks_ahead : Z) : result dict :=
  if negb (truthy stats) || negb (contains stats "average")
     || (weeks_ahead <? 1)
  then Ok ∅
  else
    let days_to_add := weeks_ahead * 7 in
    delta ← timedelta_days days_to_add;
    target_date ← datetime_add today delta;
    let days_until_friday := (4 - weekday (dt_ordinal target_date)) `mod` 7 in
    target_date ←
      (if 0 <? days_until_friday
       then delta ← timedelta_days days_until_friday;
            datetime_add target_date delta
       else Ok target_date);
    expected_price ← compound current_price stats "average" weeks_ahead;
    optimistic_price ← compound current_price stats "maximum" weeks_ahead;
    pessimistic_price ← compound current_price stats "minimum" weeks_ahead;
    expected_total_change ← total_change expected_price current_price;
    optimistic_total_change ← total_change optimistic_price current_price;
    pessimistic_total_change ← total_change pessimistic_price current_price;
    weekly_avg_return ← getitem stats "average";
    weekly_max_return ← getitem stats "maximum";
    weekly_min_return ← getitem stats "minimum";
    Ok (<["current_price" := VFloat current_price]>
       (<["expected_price" := VFloat expected_price]>
       (<["optimistic_price" := VFloat optimistic_price]>
       (<["pessimistic_price" := VFloat pessimistic_price]>
       (<["expected_change" := VFloat expected_total_change]>
       (<["optimistic_change" := VFloat optimistic_total_change]>
       (<["pessimistic_change" := VFloat pessimistic_total_change]>
       (<["weeks_ahead" := VInt weeks_ahead]>
       (<["target_date" := VDatetime target_date]>
       (<["target_date_str" := VStr (strftime_B_d_Y target_date)]>
       (<["weekly_avg_return" := weekly_avg_return]>
       (<["weekly_max_return" := weekly_max_return]>
       (<["weekly_min_return" := weekly_min_return]> ∅))))))))))))).

Definition predict_current_week_price (today : datetime)
    (current_price : f64) (stats : dict) : result dict :=
  predict_future_week_price today current_price stats 1.


(** * Notions used in the statements *)

(** The value a call returned, with a default for a call that raised. *)
Definition is_ok {A : Type} (m : result A) : bool :=
  match m with Ok _ => true | Raise _ => false end.

Definition unwrap {A : Type} (default : A) (m : result A) : A :=
  match m with Ok a => a | Raise _ => default end.

(** The date the projection is made for, in closed form. *)
Definition friday_on_or_after (t : datetime) (days : Z) : datetime :=
  let o := dt_ordinal t + days in
  mk_datetime (o + (4 - weekday o) `mod` 7) (dt_micros t).

(** Dates in ascending order (equal neighbours allowed). *)
Fixpoint ascending (l : list Z) : bool :=
  match l with
  | a :: (b :: _) as rest => (a <=? b) && ascending rest
  | _ => true
  end.

(** The sum of a sequence of rationals, as the statements about
    calculate_statistics read it. *)
Definition Qsum (l : list Q) : Q := foldr Qplus 0%Q l.

(** ** Weekly closes, as the description of the weekly return series
    reads them *)

(** The weeks (by their closing Friday) that hold a trading day, each
    once. *)
Definition trading_weeks (df : frame) : list Z :=
  remove_dups (week_end <$> df.*1).

(** The Close of the last trading day of the week that ends on [w]. *)
Definition close_of_week (df : frame) (w : Z) : f64 :=
  match last (filter (fun r => week_end r.1 = w) df) with
  | Some r => r.2
  | None => NaN
  end.

(** One close per week that has a trading day. *)
Definition weekly_closes (df : frame) : frame :=
  map (fun w => (w, close_of_week df w)) (trading_weeks df).

(** [(curr / prev - 1) * 100] for each close after [prev]. *)
Fixpoint returns_from (prev : f64) (closes : frame) : frame :=
  match closes with
  | [] => []
  | (d, c) :: rest =>
      (d, fmul (fsub (fdiv c prev) (Fin 1)) (Fin 100)) :: returns_from c rest
  end.

(** The returns between adjacent weekly closes; the first week has no
    predecessor and yields none. *)
Definition adjacent_returns (closes : frame) : frame :=
  match closes with
  | [] => []
  | (_, c0) :: rest => returns_from c0 rest
  end.

(** Every Close is a positive finite number. *)
Definition positive_closes (df : frame) : bool :=
  forallb (fun r => match r.2 with
                    | Fin q => negb (Qle_bool q 0)
                    | _ => false
                    end) df.

(** Every week from the first to the last holds a trading day. *)
Definition no_gap (df : frame) : bool :=
  forallb (fun w => existsb (fun r => week_end r.1 =? w) df) (week_labels df).

(** * Sample inputs and instances of the library parameters *)

(** A square root rounded down to the denominator of its argument. *)
Definition floor_sqrt (q : Q) : Q :=
  Z.sqrt (Qnum q * Zpos (Qden q)) # Qden q.

Definition sample_stats : dict :=
  <["average" := VFloat (Fin 2)]>
  (<["minimum" := VFloat (Fin (-1))]>
  (<["maximum" := VFloat (Fin 5)]> ∅)).

(** Tuesday 3 November 2026, 09:30. *)
Definition sample_today : datetime :=
  mk_datetime (ymd2ord 2026 11 3) 34200000000.

Definition sample_projection : dict :=
  unwrap ∅ (predict_future_week_price sample_today (Fin 100) sample_stats 4).

(** A record that has 'average' but neither 'minimum' nor 'maximum'. *)
Definition average_only : dict := <["average" := VFloat (Fin 1)]> ∅.

(** A record whose minimum is a loss of more than the whole price. *)
Definition steep_loss_stats : dict :=
  <["average" := VFloat (Fin 0)]>
  (<["minimum" := VFloat (Fin (-300))]>
  (<["maximum" := VFloat (Fin 0)]> ∅)).

Definition steep_loss_projection : dict :=
  unwrap ∅
    (predict_future_week_price sample_today (Fin 100) steep_loss_stats 2).

Definition negative_price_projection : dict :=
  unwrap ∅
    (predict_future_week_price sample_today (Fin (-100)) sample_stats 1).

(** Four trading days from Monday 1 January 2024 to Monday 8 January. *)
Definition sample_prices : frame :=
  [(738886, Fin 100); (738887, Fin 102); (738890, Fin 101);
   (738893, Fin 105)].

(** Monday 1 January and Monday 15 January 2024: the week between them
    has no trading day. *)
Definition gap_prices : frame := [(738886, Fin 100); (738900, Fin 110)].

(** Two Mondays of January 2022 and one of January 2024: the last year
    holds a single trading day. *)
Definition sparse_prices : frame :=
  [(ymd2ord 2022 1 3, Fin 50); (ymd2ord 2022 1 10, Fin 55);
   (ymd2ord 2024 1 8, Fin 60)].

Definition sparse_timeframe_stats : list (string * dict) :=
  unwrap [] (calculate_multi_timeframe_stats minus_years false floor_sqrt
               sparse_prices).

(** A weekly cell that is either missing or a positive finite close. *)
Definition nan_or_positive (x : f64) : Prop :=
  x = NaN \/ exists q, x = Fin q /\ (0 < q)%Q.

(** The keys of a projection record. *)
Definition projection_keys : gset string :=
  {[ "current_price"; "expected_price"; "optimistic_price";
     "pessimistic_price"; "expected_change"; "optimistic_change";
     "pessimistic_change"; "weeks_ahead"; "target_date"; "target_date_str";
     "weekly_avg_return"; "weekly_max_return"; "weekly_min_return" ]}.

(** The keys of a record of calculate_multi_timeframe_stats. *)
Definition timeframe_record_keys : gset string :=
  {[ "average"; "minimum"; "maximum"; "std_dev"; "count";
     "data_start"; "data_end"; "years_of_data" ]}.

(** ** utils/stats.py: format_large_number *)

(** The integer nearest to a rational that is not negative, a tie going to
    the even neighbour. *)
Definition round_half_even (q : Q) : Z :=
  let n := Qnum q in
  let d := Z.pos (Qden q) in
  let f := n / d in
  let r2 := 2 * (n `mod` d) in
  if r2 <? d then f
  else if d <? r2 then f + 1
  else if Z.even f then f else f + 1.

(** The format specification [.2f] of a float: two decimals, the exact
    value rounded half to even, the sign kept when the value rounds to
    zero. *)
Definition format_2f (x : f64) : string :=
  match x with
  | Fin q =>
      let negative := negb (Qle_bool 0 q) in
      let cents := round_half_even ((if negative then - q else q) * 100) in
      (if negative then "-" else "")
      +:+ pretty (cents / 100) +:+ "." +:+ two_digits (cents `mod` 100)
  | Inf neg => if neg then "-inf" else "inf"
  | NaN => "nan"
  end.

(** [num] is [None] or a float. *)
Definition format_large_number (num : option f64) : result string :=
  match num with
  | None => Ok "N/A"
  | Some num =>
      if fle (Fin 1e12) num then
        x ← py_truediv num (Fin 1e12); Ok ("$" +:+ format_2f x +:+ "T")
      else if fle (Fin 1e9) num then
        x ← py_truediv num (Fin 1e9); Ok ("$" +:+ format_2f x +:+ "B")
      else if fle (Fin 1e6) num then
        x ← py_truediv num (Fin 1e6); Ok ("$" +:+ format_2f x +:+ "M")
      else if fle (Fin 1e3) num then
        x ← py_truediv num (Fin 1e3); Ok ("$" +:+ format_2f x +:+ "K")
      else Ok ("$" +:+ format_2f num)
  end.
(** * Properties *)

(** ** The result monad *)

Lemma bind_Ok_inv {A B : Type} (m : result A) (k : A -> result B) (b : B) :
  (m ≫= k) = Ok b -> exists a, m = Ok a /\ k a = Ok b.
Proof.
  destruct m as [a|e]; simpl; intros H; [eauto | discriminate].
Qed.

Lemma is_ok_unwrap {A : Type} (default : A) (m : result A) :
  is_ok m = true -> m = Ok (unwrap default m).
Proof. by destruct m. Qed.

Ltac bind_inv H :=
  let a := fresh "x" in
  let Ha := fresh "E" in
  apply bind_Ok_inv in H; destruct H as (a & Ha & H).

(** ** Price projection *)

Lemma truthy_lookup (d : dict) (k : string) (v : pyval) :
  d !! k = Some v -> truthy d = true.
Proof.
  intros H. unfold truthy.
  destruct (Nat.eqb_spec (size d) 0) as [E|E]; [|done].
  apply map_size_empty_iff in E. subst d. by rewrite lookup_empty in H.
Qed.

Lemma guard_passes (stats : dict) (weeks_ahead : Z) (v : pyval) :
  stats !! "average" = Some v -> 1 <= weeks_ahead ->
  negb (truthy stats) || negb (contains stats "average")
    || (weeks_ahead <? 1) = false.
Proof.
  intros H Hk. rewrite (truthy_lookup _ _ _ H). unfold contains. rewrite H.
  simpl. lia.
Qed.

Lemma getitem_Ok (d : dict) (k : string) (v : pyval) :
  getitem d k = Ok v -> d !! k = Some v.
Proof. unfold getitem. destruct (d !! k); congruence. Qed.

Lemma compound_Ok p stats key k x :
  compound p stats key k = Ok x ->
  exists v rate, stats !! key = Some v /\ as_float v = Ok rate /\
    x = fmul p (fpow (fadd (Fin 1) (fdiv rate (Fin 100))) k).
Proof.
  unfold compound. intros H. bind_inv H. bind_inv H.
  apply getitem_Ok in E. exists x0, x1. split_and!; congruence.
Qed.

Lemma total_change_Ok price p c :
  total_change price p = Ok c ->
  c = fmul (fsub (fdiv price p) (Fin 1)) (Fin 100) /\
  (forall b, p = Fin b -> ~ (b == 0)%Q).
Proof.
  unfold total_change, py_truediv. intros H. bind_inv H.
  split.
  - destruct p as [b| |]; [destruct (Qeq_bool b 0)|..]; congruence.
  - intros b ->. destruct (Qeq_bool b 0) eqn:Eb; [discriminate|].
    intros Hb. apply Qeq_bool_iff in Hb. congruence.
Qed.

Lemma target_date_Ok today k t0 t :
  datetime_add today (k * 7) = Ok t0 ->
  (if 0 <? (4 - weekday (dt_ordinal t0)) `mod` 7
   then delta ← timedelta_days ((4 - weekday (dt_ordinal t0)) `mod` 7);
        datetime_add t0 delta
   else Ok t0) = Ok t ->
  t = friday_on_or_after today (k * 7).
Proof.
  unfold datetime_add, friday_on_or_after. intros H0 H.
  destruct (_ && _) in H0; [|discriminate]. injection H0 as <-. simpl in *.
  set (o := dt_ordinal today + k * 7) in *.
  destruct (0 <? _) eqn:E.
  - bind_inv H. unfold timedelta_days in E0.
    destruct (_ <=? _) in E0; [|discriminate]. injection E0 as <-.
    simpl in H. destruct (_ && _) in H; [|discriminate]. by injection H as <-.
  - injection H as <-. f_equal. apply Z.ltb_ge in E.
    pose proof (Z.mod_pos_bound (4 - weekday o) 7). lia.
Qed.

(** What a returned projection holds, field by field. *)
Lemma predict_future_week_price_Ok today p stats k v r :
  stats !! "average" = Some v -> 1 <= k ->
  predict_future_week_price today p stats k = Ok r ->
  exists a vmx mx vmn mn,
    as_float v = Ok a /\
    stats !! "maximum" = Some vmx /\ as_float vmx = Ok mx /\
    stats !! "minimum" = Some vmn /\ as_float vmn = Ok mn /\
    (forall b, p = Fin b -> ~ (b == 0)%Q) /\
    let scenario rate :=
      fmul p (fpow (fadd (Fin 1) (fdiv rate (Fin 100))) k) in
    let change price := fmul (fsub (fdiv price p) (Fin 1)) (Fin 100) in
    let target := friday_on_or_after today (k * 7) in
    r = <["current_price" := VFloat p]>
       (<["expected_price" := VFloat (scenario a)]>
       (<["optimistic_price" := VFloat (scenario mx)]>
       (<["pessimistic_price" := VFloat (scenario mn)]>
       (<["expected_change" := VFloat (change (scenario a))]>
       (<["optimistic_change" := VFloat (change (scenario mx))]>
       (<["pessimistic_change" := VFloat (change (scenario mn))]>
       (<["weeks_ahead" := VInt k]>
       (<["target_date" := VDatetime target]>
       (<["target_date_str" := VStr (strftime_B_d_Y target)]>
       (<["weekly_avg_return" := v]>
       (<["weekly_max_return" := vmx]>
       (<["weekly_min_return" := vmn]> ∅)))))))))))).
Proof.
  intros Hv Hk. unfold predict_future_week_price.
  rewrite (guard_passes _ _ _ Hv Hk). intros H.
  bind_inv H. unfold timedelta_days in E.
  destruct (_ <=? _) in E; [|discriminate]. injection E as <-.
  bind_inv H. bind_inv H.
  pose proof (target_date_Ok _ _ _ _ E E0) as ->.
  bind_inv H. bind_inv H. bind_inv H.
  apply compound_Ok in E1 as (v1 & a & Hv1 & Ha & ->).
  apply compound_Ok in E2 as (vmx & mx & Hmx & Hfmx & ->).
  apply compound_Ok in E3 as (vmn & mn & Hmn & Hfmn & ->).
  bind_inv H. bind_inv H. bind_inv H.
  apply total_change_Ok in E1 as [-> Hp].
  apply total_change_Ok in E2 as [-> _].
  apply total_change_Ok in E3 as [-> _].
  bind_inv H. bind_inv H. bind_inv H.
  apply getitem_Ok in E1, E2, E3.
  simplify_eq.
  exists a, vmx, mx, vmn, mn. split_and!; done.
Qed.
Lemma Qpower_succ (a : Q) (n : Z) : 0 <= n -> (a ^ (n + 1) == a ^ n * a)%Q.
Proof.
  intros Hn. rewrite Qpower_plus' by lia. by rewrite Qpower_1_r.
Qed.

Lemma Qpower_base_le (a b : Q) (n : Z) :
  0 <= n -> (0 <= a)%Q -> (a <= b)%Q -> (a ^ n <= b ^ n)%Q.
Proof.
  intros Hn Ha Hab. revert n Hn. apply natlike_ind.
  - simpl. lra.
  - intros n Hn IH. unfold Z.succ. rewrite !Qpower_succ by done.
    apply Qle_trans with (b ^ n * a)%Q.
    + by apply Qmult_le_compat_r.
    + rewrite (Qmult_comm (b ^ n) a), (Qmult_comm (b ^ n) b).
      apply Qmult_le_compat_r; [done|]. apply Qpower_0_le. lra.
Qed.

Lemma bernoulli_strict (x : Q) (n : Z) :
  2 <= n -> (-1 <= x)%Q -> ~ (x == 0)%Q ->
  (1 + inject_Z n * x < (1 + x) ^ n)%Q.
Proof.
  intros Hn Hx Hx0.
  assert (0 < x * x)%Q as Hsq by nra.
  replace n with (2 + (n - 2)) by lia.
  assert (0 <= n - 2) as Hm by lia. revert Hm.
  generalize (n - 2). apply natlike_ind.
  - rewrite Z.add_0_r. change ((1 + x) ^ 2)%Q with ((1 + x) * (1 + x))%Q.
    change (inject_Z 2) with 2%Q. nra.
  - intros m Hm IH. unfold Z.succ. rewrite Z.add_assoc.
    rewrite Qpower_succ by lia.
    rewrite inject_Z_plus. change (inject_Z 1) with 1%Q.
    assert (0 < inject_Z (2 + m))%Q.
    { change 0%Q with (inject_Z 0). rewrite <- Zlt_Qlt. lia. }
    set (c := inject_Z (2 + m)) in *. set (y := ((1 + x) ^ (2 + m))%Q) in *.
    assert (0 < c * (x * x))%Q by (apply Qmult_lt_0_compat; lra).
    assert ((1 + c * x) * (1 + x) <= y * (1 + x))%Q
      by (apply Qmult_le_compat_r; lra).
    lra.
Qed.

(** C9.  The legacy entry point predict_current_week_price returns, for
    every price and statistics record, exactly what
    predict_future_week_price returns with weeks_ahead = 1. *)
Theorem predict_current_week_price_refines today current_price stats :
  predict_current_week_price today current_price stats
  = predict_future_week_price today current_price stats 1.
Proof. reflexivity. Qed.

(** C1.  Whenever the statistics record has the key 'average' and
    weeks_ahead >= 1, the projection that predict_future_week_price returns
    has expected_price = current_price * (1 + average/100)^weeks_ahead and
    expected_change = ((expected_price / current_price) - 1) * 100.  For
    finite values this is the compounded total, which for a positive price,
    a rate other than 0 (and not below -100) and two weeks or more is
    strictly above the linear value
    current_price * (1 + average*weeks_ahead/100). *)
Theorem predict_future_week_price_compounds today p stats k v r :
  stats !! "average" = Some v -> 1 <= k ->
  predict_future_week_price today p stats k = Ok r ->
  exists average expected_price,
    as_float v = Ok average /\
    expected_price
      = fmul p (fpow (fadd (Fin 1) (fdiv average (Fin 100))) k) /\
    r !! "expected_price" = Some (VFloat expected_price) /\
    r !! "expected_change"
      = Some (VFloat (fmul (fsub (fdiv expected_price p) (Fin 1)) (Fin 100)))
    /\
    (forall pq aq, p = Fin pq -> average = Fin aq ->
       expected_price = Fin (pq * (1 + aq / 100) ^ k) /\
       (0 < pq -> -100 <= aq -> ~ aq == 0 -> (2 <= k)%Z ->
        pq * (1 + aq * inject_Z k / 100) < pq * (1 + aq / 100) ^ k))%Q.
Proof.
  intros Hv Hk H.
  destruct (predict_future_week_price_Ok _ _ _ _ _ _ Hv Hk H)
    as (a & vmx & mx & vmn & mn & Ha & _ & _ & _ & _ & _ & Hr).
  cbv zeta in Hr. exists a, (fmul p (fpow (fadd (Fin 1) (fdiv a (Fin 100))) k)).
  split_and!; [done | done | by subst r | by subst r |].
  intros pq aq -> ->. split; [done|].
  intros Hp Ha100 Ha0 Hk2.
  apply Qmult_lt_l; [done|].
  pose proof (bernoulli_strict (aq / 100) k Hk2) as B.
  assert (-1 <= aq / 100)%Q as H1 by (apply Qle_shift_div_l; lra).
  assert (~ (aq / 100 == 0)%Q) as H2.
  { intros E. apply Ha0.
    assert (aq == aq / 100 * 100)%Q as -> by field.
    rewrite E. reflexivity. }
  specialize (B H1 H2).
  assert (1 + aq * inject_Z k / 100 == 1 + inject_Z k * (aq / 100))%Q
    as -> by (unfold Qdiv; ring).
  exact B.
Qed.

Lemma predict_future_week_price_compounds_witness :
  sample_stats !! "average" = Some (VFloat (Fin 2)) /\ 1 <= 4 /\
  predict_future_week_price sample_today (Fin 100) sample_stats 4
    = Ok sample_projection /\
  sample_projection !! "expected_price"
    = Some (VFloat (Fin (100 * (1 + 2 / 100) ^ 4))) /\
  (100 * (1 + 2 * inject_Z 4 / 100) < 100 * (1 + 2 / 100) ^ 4)%Q.
Proof.
  assert (sample_stats !! "average" = Some (VFloat (Fin 2))) as H1
    by reflexivity.
  assert (1 <= 4) as H2 by lia.
  assert (predict_future_week_price sample_today (Fin 100) sample_stats 4
          = Ok sample_projection) as H3
    by (apply is_ok_unwrap; vm_compute; reflexivity).
  destruct (predict_future_week_price_compounds _ _ _ _ _ _ H1 H2 H3)
    as (av & ep & Hav & Hep & Hl & _ & Hfin).
  injection Hav as <-.
  destruct (Hfin 100%Q 2%Q eq_refl eq_refl) as [E Hlin].
  split_and!; [done | done | done | by rewrite <- E |].
  apply Hlin; [reflexivity | discriminate | discriminate | lia].
Defined.

(** C3, at the input where the code departs from it: a record that has
    'average' but lacks 'maximum' makes predict_future_week_price raise
    KeyError instead of returning the empty result. *)
Theorem predict_future_week_price_missing_maximum :
  average_only !! "average" = Some (VFloat (Fin 1)) /\
  average_only !! "maximum" = None /\
  predict_future_week_price sample_today (Fin 100) average_only 1
    = Raise (KeyError "maximum").
Proof. split_and!; vm_compute; reflexivity. Qed.

(** The part of the guard that is there: no weeks, or no 'average', gives
    the empty result. *)
Lemma predict_future_week_price_guard today p stats k :
  k < 1 \/ stats !! "average" = None ->
  predict_future_week_price today p stats k = Ok ∅.
Proof.
  intros H. unfold predict_future_week_price, contains.
  destruct H as [H|H].
  - replace (k <? 1) with true by lia. by rewrite orb_true_r.
  - rewrite H. simpl. by rewrite orb_true_r.
Qed.

(** C4.  For a statistics record with 'average' and weeks_ahead >= 1, and
    any value of today, the target_date of the returned projection is a
    Friday (weekday 4) and is not before today + weeks_ahead * 7 days. *)
Theorem predict_future_week_price_target_friday today p stats k v r :
  stats !! "average" = Some v -> 1 <= k ->
  predict_future_week_price today p stats k = Ok r ->
  exists target,
    r !! "target_date" = Some (VDatetime target) /\
    weekday (dt_ordinal target) = 4 /\
    datetime_le (mk_datetime (dt_ordinal today + k * 7) (dt_micros today))
      target.
Proof.
  intros Hv Hk H.
  destruct (predict_future_week_price_Ok _ _ _ _ _ _ Hv Hk H)
    as (a & vmx & mx & vmn & mn & _ & _ & _ & _ & _ & _ & Hr).
  cbv zeta in Hr. exists (friday_on_or_after today (k * 7)).
  split_and!; [by subst r | |].
  - unfold friday_on_or_after, weekday. simpl.
    Z.div_mod_to_equations. lia.
  - unfold datetime_le, friday_on_or_after, weekday. simpl.
    Z.div_mod_to_equations. lia.
Qed.

Lemma predict_future_week_price_target_friday_witness :
  sample_stats !! "average" = Some (VFloat (Fin 2)) /\ 1 <= 4 /\
  predict_future_week_price sample_today (Fin 100) sample_stats 4
    = Ok sample_projection /\
  exists target,
    sample_projection !! "target_date" = Some (VDatetime target) /\
    weekday (dt_ordinal target) = 4 /\
    datetime_le
      (mk_datetime (dt_ordinal sample_today + 4 * 7) (dt_micros sample_today))
      target.
Proof.
  assert (sample_stats !! "average" = Some (VFloat (Fin 2))) as H1
    by reflexivity.
  assert (1 <= 4) as H2 by lia.
  assert (predict_future_week_price sample_today (Fin 100) sample_stats 4
          = Ok sample_projection) as H3
    by (apply is_ok_unwrap; vm_compute; reflexivity).
  split_and!; [done | done | done |].
  exact (predict_future_week_price_target_friday _ _ _ _ _ _ H1 H2 H3).
Defined.

(** C6 as stated fails: with maximum >= average >= minimum but a minimum
    below -100 and an even number of weeks, the pessimistic price exceeds
    the expected one (400 against 100); and with a negative current price
    the order of the three scenarios is reversed. *)
Lemma scenario_ordering_counterexample :
  (predict_future_week_price sample_today (Fin 100) steep_loss_stats 2
     = Ok steep_loss_projection /\
   steep_loss_projection !! "expected_price"
     = Some (VFloat (Fin (100 * (1 + 0 / 100) ^ 2))) /\
   steep_loss_projection !! "pessimistic_price"
     = Some (VFloat (Fin (100 * (1 + -300 / 100) ^ 2))) /\
   (-300 <= 0 /\ 0 <= 0)%Q /\
   (100 * (1 + 0 / 100) ^ 2 < 100 * (1 + -300 / 100) ^ 2)%Q) /\
  (predict_future_week_price sample_today (Fin (-100)) sample_stats 1
     = Ok negative_price_projection /\
   negative_price_projection !! "expected_price"
     = Some (VFloat (Fin (-100 * (1 + 2 / 100) ^ 1))) /\
   negative_price_projection !! "optimistic_price"
     = Some (VFloat (Fin (-100 * (1 + 5 / 100) ^ 1))) /\
   (-1 <= 2 /\ 2 <= 5)%Q /\
   (-100 * (1 + 5 / 100) ^ 1 < -100 * (1 + 2 / 100) ^ 1)%Q).
Proof.
  split_and!; try (by apply is_ok_unwrap; vm_compute);
    try (vm_compute; reflexivity); try discriminate.
Qed.

(** C6, amended.  For a positive finite current price, weeks_ahead >= 1 and
    finite rates with maximum >= average >= minimum >= -100, the returned
    projection has optimistic_price >= expected_price >= pessimistic_price. *)
Theorem predict_future_week_price_scenario_ordering
    today pq stats k v vmx vmn a mx mn r :
  stats !! "average" = Some v -> as_float v = Ok (Fin a) ->
  stats !! "maximum" = Some vmx -> as_float vmx = Ok (Fin mx) ->
  stats !! "minimum" = Some vmn -> as_float vmn = Ok (Fin mn) ->
  (0 < pq)%Q -> (-100 <= mn)%Q -> (mn <= a)%Q -> (a <= mx)%Q -> 1 <= k ->
  predict_future_week_price today (Fin pq) stats k = Ok r ->
  exists expected optimistic pessimistic,
    r !! "expected_price" = Some (VFloat (Fin expected)) /\
    r !! "optimistic_price" = Some (VFloat (Fin optimistic)) /\
    r !! "pessimistic_price" = Some (VFloat (Fin pessimistic)) /\
    (pessimistic <= expected)%Q /\ (expected <= optimistic)%Q.
Proof.
  intros Hv Ha Hvmx Hmx Hvmn Hmn Hp Hlo Hma Ham Hk H.
  destruct (predict_future_week_price_Ok _ _ _ _ _ _ Hv Hk H)
    as (a' & vmx' & mx' & vmn' & mn' & Ha' & Hvmx' & Hmx' & Hvmn' & Hmn'
        & _ & Hr).
  cbv zeta in Hr.
  assert (a' = Fin a) as -> by congruence.
  assert (mx' = Fin mx) as -> by congruence.
  assert (mn' = Fin mn) as -> by congruence.
  subst r.
  exists (pq * (1 + a / 100) ^ k)%Q, (pq * (1 + mx / 100) ^ k)%Q,
    (pq * (1 + mn / 100) ^ k)%Q.
  split_and!; [reflexivity | reflexivity | reflexivity | |].
  - rewrite !(Qmult_comm pq). apply Qmult_le_compat_r; [|lra].
    apply Qpower_base_le; [lia| |].
    + assert (-1 <= mn / 100)%Q by (apply Qle_shift_div_l; lra). lra.
    + unfold Qdiv. apply Qplus_le_r. apply Qmult_le_compat_r; [done|].
      discriminate.
  - rewrite !(Qmult_comm pq). apply Qmult_le_compat_r; [|lra].
    apply Qpower_base_le; [lia| |].
    + assert (-1 <= a / 100)%Q by (apply Qle_shift_div_l; lra). lra.
    + unfold Qdiv. apply Qplus_le_r. apply Qmult_le_compat_r; [done|].
      discriminate.
Qed.

Lemma predict_future_week_price_scenario_ordering_witness :
  predict_future_week_price sample_today (Fin 100) sample_stats 4
    = Ok sample_projection /\
  exists expected optimistic pessimistic,
    sample_projection !! "expected_price" = Some (VFloat (Fin expected)) /\
    sample_projection !! "optimistic_price"
      = Some (VFloat (Fin optimistic)) /\
    sample_projection !! "pessimistic_price"
      = Some (VFloat (Fin pessimistic)) /\
    (pessimistic <= expected)%Q /\ (expected <= optimistic)%Q.
Proof.
  assert (predict_future_week_price sample_today (Fin 100) sample_stats 4
          = Ok sample_projection) as H
    by (apply is_ok_unwrap; vm_compute; reflexivity).
  split; [done|].
  apply (predict_future_week_price_scenario_ordering
           sample_today 100%Q sample_stats 4
           (VFloat (Fin 2)) (VFloat (Fin 5)) (VFloat (Fin (-1)))
           2%Q 5%Q (-1)%Q sample_projection);
    try reflexivity; try discriminate; try lia; done.
Defined.

(** ** Timeframe slicing *)

Lemma foldl_max_spec (l : frame) (a : Z) :
  let m := foldl (fun m x => Z.max m x.1) a l in
  a <= m /\ (forall x, x ∈ l -> x.1 <= m) /\
  (m = a \/ exists x, x ∈ l /\ x.1 = m).
Proof.
  revert a. induction l as [|y l IH]; intros a; simpl.
  - split_and!; [lia | by intros x ?%elem_of_nil | by left].
  - destruct (IH (Z.max a y.1)) as (H1 & H2 & H3). split_and!.
    + lia.
    + intros x [->|Hx]%elem_of_cons; [lia | by apply H2].
    + destruct H3 as [H3|(x & Hx & H3)].
      * destruct (Z.max_spec a y.1) as [[_ E]|[_ E]].
        -- right. exists y. split; [left | congruence].
        -- left. congruence.
      * right. exists x. split; [by right | lia].
Qed.

Lemma index_max_upper (df : frame) (x : Z * f64) :
  x ∈ df -> x.1 <= index_max df.
Proof.
  destruct df as [|r rest]; [by intros ?%elem_of_nil|].
  simpl. destruct (foldl_max_spec rest r.1) as (H1 & H2 & _).
  intros [->|Hx]%elem_of_cons; [done | by apply H2].
Qed.

Lemma index_max_elem (df : frame) :
  df <> [] -> exists x, x ∈ df /\ x.1 = index_max df.
Proof.
  destruct df as [|r rest]; [done|]. intros _. simpl.
  destruct (foldl_max_spec rest r.1) as (_ & _ & [H|(x & Hx & H)]).
  - exists r. split; [left | done].
  - exists x. split; [by right | done].
Qed.

Lemma filter_from_idem (start : Z) (df : frame) :
  filter (fun r => start <= r.1) (filter (fun r => start <= r.1) df)
  = filter (fun r => start <= r.1) df.
Proof.
  induction df as [|x df IH]; [done|].
  rewrite filter_cons. case_decide as Hx; [|done].
  rewrite filter_cons. rewrite decide_True by done. by rewrite IH.
Qed.

(** A non-empty slice still holds the latest date of the frame. *)
Lemma index_max_filter_from (start : Z) (df : frame) :
  filter (fun r => start <= r.1) df <> [] ->
  index_max (filter (fun r => start <= r.1) df) = index_max df.
Proof.
  intros Hne. set (r := filter _ df) in *.
  destruct (index_max_elem r Hne) as (x & Hx & Ex).
  assert (df <> []) as Hdf by (intros ->; done).
  destruct (index_max_elem df Hdf) as (y & Hy & Ey).
  apply list_elem_of_filter in Hx as Hx'. destruct Hx' as [Hsx Hxdf].
  pose proof (index_max_upper df x Hxdf).
  assert (y ∈ r) as Hyr by (apply list_elem_of_filter; split; [lia | done]).
  pose proof (index_max_upper r y Hyr). lia.
Qed.

(** C7.  With years=None get_timeframe_data returns its input unchanged,
    and for every integer years slicing the result of a slice again with
    the same years gives the same result as slicing once. *)
Theorem get_timeframe_data_idempotent
    (date_offset_years : Z -> Z -> result Z) (full_data : frame) :
  get_timeframe_data date_offset_years full_data None = Ok full_data /\
  forall years : Z,
    (once ← get_timeframe_data date_offset_years full_data (Some years);
     get_timeframe_data date_offset_years once (Some years))
    = get_timeframe_data date_offset_years full_data (Some years).
Proof.
  split; [by destruct full_data|]. intros years.
  destruct full_data as [|x df]; [done|].
  unfold get_timeframe_data at 2 3.
  set (full := x :: df).
  destruct (date_offset_years (index_max full) years) as [start|e] eqn:E;
    [|done].
  simpl. set (once := filter _ full).
  unfold get_timeframe_data.
  destruct once as [|y rest] eqn:Eonce; [done|].
  rewrite <- Eonce. unfold once.
  rewrite index_max_filter_from by (fold once; by rewrite Eonce).
  rewrite E. simpl. by rewrite filter_from_idem.
Qed.

Lemma ascending_head (a : Z) (l : list Z) :
  ascending (a :: l) = true ->
  ascending l = true /\ forall z, z ∈ l -> a <= z.
Proof.
  revert a. induction l as [|b l IH]; intros a H.
  - split; [done | by intros z ?%elem_of_nil].
  - simpl in H. apply andb_true_iff in H as [Hab Hl].
    split; [done|]. destruct (IH b Hl) as [_ Hb].
    intros z [->|Hz]%elem_of_cons; [lia|]. specialize (Hb z Hz). lia.
Qed.

Lemma filter_from_all (start : Z) (df : frame) :
  (forall x, x ∈ df -> start <= x.1) ->
  filter (fun r => start <= r.1) df = df.
Proof.
  induction df as [|x df IH]; intros H; [done|].
  rewrite filter_cons_True by (apply H; left).
  f_equal. apply IH. intros z Hz. apply H. by right.
Qed.

Lemma filter_from_suffix (start : Z) (df : frame) :
  ascending df.*1 = true ->
  exists dropped,
    df = dropped ++ filter (fun r => start <= r.1) df /\
    forall x, x ∈ dropped -> x.1 < start.
Proof.
  induction df as [|x df IH]; intros Hs.
  - exists []. split; [done | by intros x ?%elem_of_nil].
  - rewrite fmap_cons in Hs. apply ascending_head in Hs as [Hdf Hx].
    destruct (decide (start <= x.1)) as [Hsx|Hsx].
    + exists []. split; [|by intros z ?%elem_of_nil]. simpl.
      symmetry. apply filter_from_all.
      intros z [->|Hz]%elem_of_cons; [done|].
      assert (x.1 <= z.1) by (apply Hx; by apply list_elem_of_fmap_2).
      lia.
    + destruct (IH Hdf) as (dropped & E & Hd).
      exists (x :: dropped). rewrite filter_cons_False by done. split.
      * simpl. by f_equal.
      * intros z [->|Hz]%elem_of_cons; [lia | by apply Hd].
Qed.

(** C10.  On a frame sorted ascending by date, the slice that
    get_timeframe_data returns for an integer years is a contiguous suffix
    of the input: the input is the dropped rows followed by the retained
    ones, unchanged and in their order, and every dropped row is dated
    before every retained one. *)
Theorem get_timeframe_data_suffix
    (date_offset_years : Z -> Z -> result Z) (full_data : frame)
    (years : Z) (slice : frame) :
  ascending full_data.*1 = true ->
  get_timeframe_data date_offset_years full_data (Some years) = Ok slice ->
  exists dropped,
    full_data = dropped ++ slice /\
    forall x y, x ∈ dropped -> y ∈ slice -> x.1 < y.1.
Proof.
  intros Hs H. destruct full_data as [|x df].
  - injection H as <-. exists []. split; [done|].
    by intros x y ?%elem_of_nil.
  - unfold get_timeframe_data in H. bind_inv H. injection H as <-.
    destruct (filter_from_suffix x0 (x :: df) Hs) as (dropped & Ed & Hd).
    exists dropped. split; [done|].
    intros a b Ha Hb. apply list_elem_of_filter in Hb as [Hb _].
    specialize (Hd a Ha). lia.
Qed.

Lemma get_timeframe_data_suffix_witness :
  ascending sample_prices.*1 = true /\
  get_timeframe_data minus_years sample_prices (Some 0)
    = Ok [(738893, Fin 105)] /\
  exists dropped,
    sample_prices = dropped ++ [(738893, Fin 105)] /\
    forall x y, x ∈ dropped -> y ∈ [(738893, Fin 105)] -> x.1 < y.1.
Proof.
  assert (ascending sample_prices.*1 = true) as H1 by reflexivity.
  assert (get_timeframe_data minus_years sample_prices (Some 0)
          = Ok [(738893, Fin 105)]) as H2 by (vm_compute; reflexivity).
  split_and!; [done | done |].
  exact (get_timeframe_data_suffix minus_years sample_prices 0 _ H1 H2).
Defined.

(** ** Statistics *)

Lemma filter_notna_Fin (l : list Q) :
  filter (fun x => notna x = true) (Fin <$> l) = Fin <$> l.
Proof.
  induction l as [|x l IH]; [done|].
  rewrite fmap_cons, filter_cons_True by done. by rewrite IH.
Qed.

Lemma foldl_fadd_Fin (a : Q) (l : list Q) :
  foldl fadd (Fin a) (Fin <$> l) = Fin (foldl Qplus a l).
Proof. revert a. induction l as [|x l IH]; intros a; [done|]. apply IH. Qed.

Lemma foldl_Qplus_Qsum (a : Q) (l : list Q) :
  (foldl Qplus a l == a + Qsum l)%Q.
Proof.
  revert a. induction l as [|x l IH]; intros a; simpl.
  - ring.
  - rewrite IH. ring.
Qed.

Lemma fsum_Fin (l : list Q) :
  exists s, fsum (Fin <$> l) = Fin s /\ (s == Qsum l)%Q.
Proof.
  exists (foldl Qplus 0%Q l). split; [apply foldl_fadd_Fin|].
  rewrite foldl_Qplus_Qsum. ring.
Qed.

Lemma foldl_fmin_Fin (x : Q) (l : list Q) :
  exists m, foldl fmin (Fin x) (Fin <$> l) = Fin m /\
    m ∈ x :: l /\ forall y, y ∈ x :: l -> (m <= y)%Q.
Proof.
  revert x. induction l as [|z l IH]; intros x.
  - exists x. split_and!; [done | left |].
    intros y ->%list_elem_of_singleton. apply Qle_refl.
  - rewrite fmap_cons. simpl foldl. unfold fmin at 2. simpl fle.
    destruct (Qle_bool x z) eqn:E.
    + apply Qle_bool_iff in E.
      destruct (IH x) as (m & Hm & Hin & Hle). exists m. split_and!; [done | |].
      * apply elem_of_cons in Hin as [->|Hin]; [left | right; by right].
      * assert (m <= x)%Q by (apply Hle; left).
        intros y [->|[->|Hy]%elem_of_cons]%elem_of_cons; [done | lra |].
        apply Hle. by right.
    + assert (~ (x <= z)%Q) as E'
        by (intros ?%Qle_bool_iff; congruence).
      destruct (IH z) as (m & Hm & Hin & Hle). exists m. split_and!; [done | |].
      * by right.
      * assert (m <= z)%Q by (apply Hle; left).
        intros y [->|Hy]%elem_of_cons; [lra | by apply Hle].
Qed.

Lemma foldl_fmax_Fin (x : Q) (l : list Q) :
  exists m, foldl fmax (Fin x) (Fin <$> l) = Fin m /\
    m ∈ x :: l /\ forall y, y ∈ x :: l -> (y <= m)%Q.
Proof.
  revert x. induction l as [|z l IH]; intros x.
  - exists x. split_and!; [done | left |].
    intros y ->%list_elem_of_singleton. apply Qle_refl.
  - rewrite fmap_cons. simpl foldl. unfold fmax at 2. simpl fle.
    destruct (Qle_bool z x) eqn:E.
    + apply Qle_bool_iff in E.
      destruct (IH x) as (m & Hm & Hin & Hle). exists m. split_and!; [done | |].
      * apply elem_of_cons in Hin as [->|Hin]; [left | right; by right].
      * assert (x <= m)%Q by (apply Hle; left).
        intros y [->|[->|Hy]%elem_of_cons]%elem_of_cons; [done | lra |].
        apply Hle. by right.
    + assert (~ (z <= x)%Q) as E'
        by (intros ?%Qle_bool_iff; congruence).
      destruct (IH z) as (m & Hm & Hin & Hle). exists m. split_and!; [done | |].
      * by right.
      * assert (z <= m)%Q by (apply Hle; left).
        intros y [->|Hy]%elem_of_cons; [lra | by apply Hle].
Qed.

Lemma fdiv_count (s : Q) (n : Z) :
  0 < n -> fdiv (Fin s) (of_int n) = Fin (s / inject_Z n).
Proof.
  intros Hn. unfold fdiv, of_int.
  destruct (Qeq_bool (inject_Z n) 0) eqn:E; [|done].
  apply Qeq_bool_iff in E. unfold Qeq in E. simpl in E. lia.
Qed.

Lemma map_sq_dev_Fin (m : Q) (l : list Q) :
  map (sq_dev (Fin m)) (Fin <$> l)
  = Fin <$> map (fun y => (m + - y) * (m + - y))%Q l.
Proof. induction l as [|x l IH]; [done|]. simpl. f_equal. exact IH. Qed.

Lemma Qsum_squares_nonneg (m : Q) (l : list Q) :
  (0 <= Qsum (map (fun y => (m + - y) * (m + - y)) l))%Q.
Proof.
  induction l as [|x l IH]; simpl; [lra|].
  pose proof (Qsqr_nonneg (m + - x)) as H.
  change ((m + - x) ^ 2)%Q with ((m + - x) * (m + - x))%Q in H. lra.
Qed.

Lemma Qsum_ext (f g : Q -> Q) (l : list Q) :
  (forall y, f y == g y)%Q -> (Qsum (map f l) == Qsum (map g l))%Q.
Proof.
  intros H. induction l as [|x l IH]; simpl; [reflexivity|].
  by rewrite H, IH.
Qed.

Lemma series_mean_Fin (x : Q) (rest : list Q) :
  exists s, (s == Qsum (x :: rest))%Q /\
    series_mean (Fin <$> x :: rest)
    = Fin (s / inject_Z (Z.of_nat (length (x :: rest)))).
Proof.
  destruct (fsum_Fin (x :: rest)) as (s & Hs & Es). exists s. split; [done|].
  unfold series_mean. rewrite filter_notna_Fin, fmap_cons. cbv beta iota.
  rewrite <- fmap_cons, Hs, length_fmap. apply fdiv_count. simpl. lia.
Qed.

Lemma series_std_Fin (np_sqrt : Q -> Q) (s : Q) (l : list Q) :
  fsum (Fin <$> l) = Fin s ->
  let count := Z.of_nat (length l) in
  let avg := (s / inject_Z count)%Q in
  (count < 2 -> series_std np_sqrt (Fin <$> l) = NaN) /\
  (2 <= count ->
   exists variance,
     series_std np_sqrt (Fin <$> l) = Fin (np_sqrt variance) /\
     (variance * inject_Z (count - 1)
      == Qsum (map (fun y => (y - avg) * (y - avg)) l))%Q).
Proof.
  intros Hs count avg. unfold series_std.
  rewrite filter_notna_Fin, length_fmap. fold count. split.
  - intros Hlt. by replace (count <=? 1) with true by lia.
  - intros Hge. replace (count <=? 1) with false by lia.
    rewrite Hs, fdiv_count by lia. fold avg.
    rewrite map_sq_dev_Fin.
    destruct (fsum_Fin (map (fun y => (avg + - y) * (avg + - y))%Q l))
      as (sq & Hsq & Esq).
    rewrite Hsq, fdiv_count by lia.
    assert (0 < inject_Z (count - 1))%Q as Hpos.
    { change 0%Q with (inject_Z 0). rewrite <- Zlt_Qlt. lia. }
    assert (0 <= sq / inject_Z (count - 1))%Q as Hnn.
    { apply Qle_shift_div_l; [done|]. rewrite Qmult_0_l, Esq.
      apply Qsum_squares_nonneg. }
    exists (sq / inject_Z (count - 1))%Q. split.
    + unfold fsqrt. apply Qle_bool_iff in Hnn. by rewrite Hnn.
    + rewrite (Qsum_ext (fun y => (y - avg) * (y - avg))%Q
                 (fun y => (avg + - y) * (avg + - y))%Q)
        by (intros y; ring).
      rewrite <- Esq. field. lra.
Qed.

(** C8.  For a non-empty sequence of (finite) returns calculate_statistics
    returns the record whose average is the arithmetic mean (average times
    the count is the sum), whose minimum and maximum are members of the
    sequence bounding it, whose count is the length and whose std_dev is the
    square root of the sum of squared deviations from the average over
    count - 1, and NaN when the count is below 2; for the empty sequence it
    returns the empty record. *)
Theorem calculate_statistics_record (np_sqrt : Q -> Q) (x : Q)
    (rest : list Q) :
  let returns := x :: rest in
  let count := Z.of_nat (length returns) in
  calculate_statistics np_sqrt [] = ∅ /\
  exists average minimum maximum std_dev,
    calculate_statistics np_sqrt (Fin <$> returns)
    = <["average" := VFloat (Fin average)]>
      (<["minimum" := VFloat (Fin minimum)]>
      (<["maximum" := VFloat (Fin maximum)]>
      (<["std_dev" := VFloat std_dev]>
      (<["count" := VInt count]> ∅)))) /\
    (average * inject_Z count == Qsum returns)%Q /\
    (minimum ∈ returns /\ forall y, y ∈ returns -> (minimum <= y)%Q) /\
    (maximum ∈ returns /\ forall y, y ∈ returns -> (y <= maximum)%Q) /\
    (count < 2 -> std_dev = NaN) /\
    (2 <= count ->
     exists variance,
       std_dev = Fin (np_sqrt variance) /\
       (variance * inject_Z (count - 1)
        == Qsum (map (fun y => (y - average) * (y - average)) returns))%Q).
Proof.
  intros returns count. subst returns count. split; [done|].
  set (returns := x :: rest). set (count := Z.of_nat (length returns)).
  destruct (fsum_Fin returns) as (s & Hs & Es).
  destruct (series_mean_Fin x rest) as (s' & Es' & Hmean).
  destruct (foldl_fmin_Fin x rest) as (mn & Hmn & Hmn_in & Hmn_le).
  destruct (foldl_fmax_Fin x rest) as (mx & Hmx & Hmx_in & Hmx_le).
  destruct (series_std_Fin np_sqrt s returns Hs) as [Hstd1 Hstd2].
  fold returns count in Hstd1, Hstd2, Hmean, Es'.
  assert (0 < inject_Z count)%Q as Hpos.
  { change 0%Q with (inject_Z 0). rewrite <- Zlt_Qlt. unfold count. simpl. lia. }
  assert (s' == s)%Q as Ess by (by rewrite Es, Es').
  exists (s' / inject_Z count)%Q, mn, mx,
    (series_std np_sqrt (Fin <$> returns)).
  split_and!; try done.
  - unfold calculate_statistics.
    change (Fin <$> returns) with (Fin x :: (Fin <$> rest)) at 1.
    cbv beta iota. change (Fin x :: (Fin <$> rest)) with (Fin <$> returns).
    rewrite Hmean. unfold series_min, series_max.
    rewrite filter_notna_Fin, length_fmap.
    change (Fin <$> returns) with (Fin x :: (Fin <$> rest)).
    cbv beta iota. by rewrite Hmn, Hmx.
  - rewrite <- Es'. field. lra.
  - intros Hge. destruct (Hstd2 Hge) as (variance & Hv & Ev).
    exists variance. split; [done|]. rewrite Ev.
    apply Qsum_ext. intros y. by rewrite Ess.
Qed.
Lemma calculate_statistics_record_witness :
  calculate_statistics floor_sqrt [] = ∅ /\
  exists average std_dev,
    calculate_statistics floor_sqrt [Fin 1; Fin 3] !! "average"
      = Some (VFloat (Fin average)) /\
    (average * 2 == 1 + (3 + 0))%Q /\
    calculate_statistics floor_sqrt [Fin 1; Fin 3] !! "std_dev"
      = Some (VFloat std_dev) /\
    exists variance,
      std_dev = Fin (floor_sqrt variance) /\
      (variance * 1
       == (1 - average) * (1 - average)
          + ((3 - average) * (3 - average) + 0))%Q.
Proof.
  destruct (calculate_statistics_record floor_sqrt 1%Q [3%Q])
    as [Hempty (average & minimum & maximum & std_dev & Hrec & Havg & _ & _
                & _ & Hstd)].
  split; [exact Hempty|]. exists average, std_dev.
  change (Fin <$> [1%Q; 3%Q]) with [Fin 1; Fin 3] in Hrec.
  rewrite Hrec. split_and!.
  - by simplify_map_eq.
  - exact Havg.
  - by simplify_map_eq.
  - apply Hstd. simpl. lia.
Defined.

(** ** The timeframe loop *)

Lemma setitem_fresh (results : list (string * dict)) k v :
  k ∉ results.*1 -> setitem results k v = results ++ [(k, v)].
Proof.
  induction results as [|[k' v'] rest IH]; intros Hk; [done|].
  rewrite fmap_cons in Hk. apply not_elem_of_cons in Hk as [Hne Hk].
  simpl. destruct (String.eqb_spec k' k) as [->|_]; [done|].
  by rewrite IH.
Qed.

Lemma getlabel_None (results : list (string * dict)) k :
  getlabel results k = None <-> k ∉ results.*1.
Proof.
  induction results as [|[k' v'] rest IH]; simpl.
  - split; [intros _; apply not_elem_of_nil | done].
  - rewrite not_elem_of_cons. destruct (String.eqb_spec k' k) as [->|Hne].
    + split; [done | by intros [? _]].
    + rewrite IH. split; [by intros ? | by intros [_ ?]].
Qed.

Lemma getlabel_app_fresh (acc added : list (string * dict)) k :
  k ∉ acc.*1 -> getlabel (acc ++ added) k = getlabel added k.
Proof.
  induction acc as [|[k' v'] rest IH]; intros Hk; [done|].
  rewrite fmap_cons in Hk. apply not_elem_of_cons in Hk as [Hne Hk].
  simpl. destruct (String.eqb_spec k' k) as [->|_]; [done | by apply IH].
Qed.

Lemma calculate_statistics_truthy np_sqrt (returns : list f64) :
  returns <> [] -> truthy (calculate_statistics np_sqrt returns) = true.
Proof.
  intros H. apply (truthy_lookup _ "average" (VFloat (series_mean returns))).
  destruct returns; [done|]. unfold calculate_statistics.
  apply lookup_insert_eq.
Qed.

Section TimeframeLoop.

Variable date_offset_years : Z -> Z -> result Z.
Variable pct_change_pad : bool.
Variable np_sqrt : Q -> Q.

Let slice := get_timeframe_data date_offset_years.
Let weekly := calculate_weekly_returns pct_change_pad.
Let body := timeframe_body date_offset_years pct_change_pad np_sqrt.

(** What one period contributes: nothing, or its augmented record. *)
Lemma timeframe_body_Ok full_data acc label years acc' :
  body full_data acc (label, years) = Ok acc' ->
  exists period_data,
    slice full_data years = Ok period_data /\
    (((period_data = [] \/ weekly period_data = []) /\ acc' = acc) \/
     (period_data <> [] /\ weekly period_data <> [] /\
      acc' = setitem acc label
               (add_period_info period_data
                  (calculate_statistics np_sqrt (weekly period_data).*2)))).
Proof.
  unfold body, timeframe_body. intros H. bind_inv H.
  exists x. split; [done|].
  destruct x as [|r rest] eqn:Ex; [left; split; [by left | congruence]|].
  fold weekly in H.
  destruct (weekly (r :: rest)) as [|w ws] eqn:Ew;
    [left; split; [by right | congruence]|].
  right. split_and!; [done | done |].
  rewrite calculate_statistics_truthy in H by done.
  injection H as <-. reflexivity.
Qed.

Lemma for_each_body_spec full_data tfs :
  forall acc res,
  for_each (body full_data) acc tfs = Ok res ->
  NoDup tfs.*1 -> (forall l, l ∈ tfs.*1 -> l ∉ acc.*1) ->
  (exists added, res = acc ++ added /\ added.*1 `sublist_of` tfs.*1) /\
  forall label years, (label, years) ∈ tfs ->
    exists period_data,
      slice full_data years = Ok period_data /\
      (period_data = [] \/ weekly period_data = [] -> label ∉ res.*1) /\
      (period_data <> [] -> weekly period_data <> [] ->
       getlabel res label
       = Some (add_period_info period_data
                 (calculate_statistics np_sqrt (weekly period_data).*2))).
Proof.
  induction tfs as [|[label0 years0] tfs IH]; intros acc res H Hnd Hfresh.
  - injection H as <-. split.
    + exists []. by rewrite app_nil_r.
    + by intros label years ?%elem_of_nil.
  - simpl in H. bind_inv H. rewrite fmap_cons in Hnd.
    apply NoDup_cons in Hnd as [Hl0 Hnd].
    assert (label0 ∉ acc.*1) as Hl0acc by (apply Hfresh; left).
    apply timeframe_body_Ok in E as (pd & Hpd & Hcase).
    assert (forall l, l ∈ tfs.*1 -> l ∉ x.*1) as Hfresh'.
    { intros l Hl. assert (l ∉ acc.*1) by (apply Hfresh; by right).
      destruct Hcase as [[_ ->]|(_ & _ & ->)]; [done|].
      rewrite setitem_fresh by done. rewrite fmap_app.
      apply not_elem_of_app. split; [done|]. simpl.
      apply not_elem_of_cons. split; [|apply not_elem_of_nil].
      intros ->. done. }
    destruct (IH x res H Hnd Hfresh') as [(added & -> & Hsub) Hrest].
    assert (label0 ∉ added.*1) as Hl0added.
    { intros Hin. apply Hl0. by eapply elem_of_sublist. }
    split.
    + destruct Hcase as [[_ ->]|(_ & _ & ->)].
      * exists added. split; [done|]. by apply sublist_cons.
      * rewrite setitem_fresh by done.
        exists ((label0, add_period_info pd
                   (calculate_statistics np_sqrt (weekly pd).*2)) :: added).
        split; [by rewrite <- app_assoc|]. simpl. by apply sublist_skip.
    + intros label years [Heq|Hin]%elem_of_cons; [|by apply Hrest].
      injection Heq as -> ->. exists pd. split; [done|].
      destruct Hcase as [[Hempty ->]|(Hne1 & Hne2 & ->)].
      * split; [|intros Hne1 Hne2; by destruct Hempty].
        intros _. rewrite fmap_app. by apply not_elem_of_app.
      * split; [intros [?|?]; done|]. intros _ _.
        rewrite setitem_fresh by done. rewrite <- app_assoc.
        rewrite getlabel_app_fresh by done. simpl.
        by rewrite String.eqb_refl.
Qed.

End TimeframeLoop.

(** C5.  calculate_multi_timeframe_stats goes through the five labels max,
    10yr, 5yr, 3yr, 1yr in that order (the keys of its result are a
    subsequence of them); a label whose slice or whose weekly-return series
    is empty is not a key of the result; a label that is inserted holds the
    statistics of its weekly returns with data_start = the slice's minimum
    date, data_end = its maximum date and years_of_data = len(slice)/252;
    and no key holds an empty record. *)
Theorem calculate_multi_timeframe_stats_entries
    (date_offset_years : Z -> Z -> result Z) (pct_change_pad : bool)
    (np_sqrt : Q -> Q) (full_data : frame) (results : list (string * dict)) :
  calculate_multi_timeframe_stats date_offset_years pct_change_pad np_sqrt
    full_data = Ok results ->
  results.*1 `sublist_of` ["max"; "10yr"; "5yr"; "3yr"; "1yr"] /\
  (forall label years,
     (label, years) ∈ [("max", None); ("10yr", Some 10); ("5yr", Some 5);
                       ("3yr", Some 3); ("1yr", Some 1)] ->
     exists period_data,
       get_timeframe_data date_offset_years full_data years = Ok period_data
       /\
       let weekly_returns :=
         calculate_weekly_returns pct_change_pad period_data in
       (period_data = [] \/ weekly_returns = [] -> label ∉ results.*1) /\
       (period_data <> [] -> weekly_returns <> [] ->
        exists stats,
          getlabel results label = Some stats /\
          stats !! "data_start" = Some (VTimestamp (index_min period_data)) /\
          stats !! "data_end" = Some (VTimestamp (index_max period_data)) /\
          stats !! "years_of_data"
            = Some (VFloat (Fin (inject_Z (Z.of_nat (length period_data))
                                 / 252))) /\
          forall key,
            key ∉ ["data_start"; "data_end"; "years_of_data"] ->
            stats !! key
            = calculate_statistics np_sqrt weekly_returns.*2 !! key)) /\
  (forall label stats, (label, stats) ∈ results -> stats <> ∅).
Proof.
  intros H. unfold calculate_multi_timeframe_stats in H.
  assert (NoDup timeframes.*1) as Hnd
    by (apply (bool_decide_unpack _); vm_compute; exact I).
  assert (forall l, l ∈ timeframes.*1 -> l ∉ ([] : list (string * dict)).*1)
    as Hfresh by (intros l _; apply not_elem_of_nil).
  destruct (for_each_body_spec _ _ _ _ _ _ _ H Hnd Hfresh)
    as [(added & -> & Hsub) Hall].
  rewrite app_nil_l in *.
  assert (forall label years, (label, years) ∈ timeframes ->
    exists period_data,
      get_timeframe_data date_offset_years full_data years = Ok period_data /\
      let weekly_returns :=
        calculate_weekly_returns pct_change_pad period_data in
      (period_data = [] \/ weekly_returns = [] -> label ∉ added.*1) /\
      (period_data <> [] -> weekly_returns <> [] ->
       exists stats,
         getlabel added label = Some stats /\
         stats !! "data_start" = Some (VTimestamp (index_min period_data)) /\
         stats !! "data_end" = Some (VTimestamp (index_max period_data)) /\
         stats !! "years_of_data"
           = Some (VFloat (Fin (inject_Z (Z.of_nat (length period_data))
                                / 252))) /\
         forall key,
           key ∉ ["data_start"; "data_end"; "years_of_data"] ->
           stats !! key
           = calculate_statistics np_sqrt weekly_returns.*2 !! key)) as Hspec.
  { intros label years Hin.
    destruct (Hall label years Hin) as (pd & Hpd & Habsent & Hpresent).
    exists pd. split; [done|]. cbv zeta. split; [done|].
    intros Hne1 Hne2. eexists. split; [by apply Hpresent|].
    unfold add_period_info. split_and!.
    - by simplify_map_eq.
    - by simplify_map_eq.
    - by simplify_map_eq.
    - intros key Hkey. rewrite !not_elem_of_cons in Hkey.
      destruct Hkey as (? & ? & ? & _). by simplify_map_eq. }
  split_and!; [done | done |].
  intros label stats Hin.
  assert (label ∈ added.*1) as Hlabel
    by (apply list_elem_of_fmap; by exists (label, stats)).
  assert (label ∈ timeframes.*1) as Htf by (by eapply elem_of_sublist).
  apply list_elem_of_fmap in Htf as ([label' years] & -> & Htf). simpl in *.
  destruct (Hspec _ _ Htf) as (pd & _ & Habsent & Hpresent).
  destruct pd as [|r rest] eqn:Epd; [exfalso; by apply Habsent; [left|]|].
  destruct (calculate_weekly_returns pct_change_pad (r :: rest)) eqn:Ew;
    [exfalso; by apply Habsent; [right|]|].
  destruct Hpresent as (stats' & Hget & Hstart & _); [done | done |].
  (* the entry found under the label is the only one with that label *)
  assert (NoDup added.*1) as Hnd'.
  { eapply sublist_NoDup; [exact Hnd | exact Hsub]. }
  assert (getlabel added label' = Some stats) as Hget'.
  { clear -Hin Hnd'. induction added as [|[k v] rest' IH]; [by apply elem_of_nil in Hin|].
    rewrite fmap_cons in Hnd'. apply NoDup_cons in Hnd' as [Hk Hnd'].
    simpl. apply elem_of_cons in Hin as [Heq|Hin].
    - injection Heq as -> ->. by rewrite String.eqb_refl.
    - destruct (String.eqb_spec k label') as [->|_]; [|by apply IH].
      exfalso. apply Hk. apply list_elem_of_fmap. by exists (label', stats). }
  assert (stats' = stats) as <- by congruence.
  intros ->. by rewrite lookup_empty in Hstart.
Qed.

Lemma calculate_multi_timeframe_stats_entries_witness :
  calculate_multi_timeframe_stats minus_years false floor_sqrt sparse_prices
    = Ok sparse_timeframe_stats /\
  sparse_timeframe_stats.*1 = ["max"; "10yr"; "5yr"; "3yr"] /\
  sparse_timeframe_stats.*1 `sublist_of` ["max"; "10yr"; "5yr"; "3yr"; "1yr"].
Proof.
  assert (calculate_multi_timeframe_stats minus_years false floor_sqrt
            sparse_prices = Ok sparse_timeframe_stats) as H
    by (apply is_ok_unwrap; vm_compute; reflexivity).
  split_and!; [done | vm_compute; reflexivity |].
  exact (proj1 (calculate_multi_timeframe_stats_entries _ _ _ _ _ H)).
Defined.

(** ** Weekly returns *)

Lemma week_end_friday (d : Z) : weekday (week_end d) = 4.
Proof. unfold week_end, weekday. Z.div_mod_to_equations. lia. Qed.

Lemma week_end_bounds (d : Z) : d <= week_end d < d + 7.
Proof. unfold week_end, weekday. Z.div_mod_to_equations. lia. Qed.

Lemma week_end_mono (d d' : Z) : d <= d' -> week_end d <= week_end d'.
Proof. unfold week_end, weekday. Z.div_mod_to_equations. lia. Qed.

(** The bin [(w - 7, w]] of a Friday [w] holds the dates whose week ends
    on [w]. *)
Lemma week_end_bin (w d : Z) :
  weekday w = 4 -> (w - 7 < d /\ d <= w <-> week_end d = w).
Proof. unfold week_end, weekday. Z.div_mod_to_equations. lia. Qed.

Lemma week_end_step (d d' : Z) :
  d <= d' -> exists i, 0 <= i /\ week_end d' = week_end d + 7 * i.
Proof.
  intros H. exists ((week_end d' - week_end d) / 7).
  unfold week_end, weekday. Z.div_mod_to_equations. lia.
Qed.

Lemma foldl_min_spec (l : frame) (a : Z) :
  let m := foldl (fun m x => Z.min m x.1) a l in
  m <= a /\ (forall x, x ∈ l -> m <= x.1) /\
  (m = a \/ exists x, x ∈ l /\ x.1 = m).
Proof.
  revert a. induction l as [|y l IH]; intros a; simpl.
  - split_and!; [lia | by intros x ?%elem_of_nil | by left].
  - destruct (IH (Z.min a y.1)) as (H1 & H2 & H3). split_and!.
    + lia.
    + intros x [->|Hx]%elem_of_cons; [lia | by apply H2].
    + destruct H3 as [H3|(x & Hx & H3)].
      * destruct (Z.min_spec a y.1) as [[_ E]|[_ E]].
        -- left. congruence.
        -- right. exists y. split; [left | congruence].
      * right. exists x. split; [by right | lia].
Qed.

Lemma index_min_lower (df : frame) (x : Z * f64) :
  x ∈ df -> index_min df <= x.1.
Proof.
  destruct df as [|r rest]; [by intros ?%elem_of_nil|].
  simpl. destruct (foldl_min_spec rest r.1) as (H1 & H2 & _).
  intros [->|Hx]%elem_of_cons; [done | by apply H2].
Qed.

Lemma index_min_elem (df : frame) :
  df <> [] -> exists x, x ∈ df /\ x.1 = index_min df.
Proof.
  destruct df as [|r rest]; [done|]. intros _. simpl.
  destruct (foldl_min_spec rest r.1) as (_ & _ & [H|(x & Hx & H)]).
  - exists r. split; [left | done].
  - exists x. split; [by right | done].
Qed.

Lemma elem_of_week_labels (df : frame) (w : Z) :
  w ∈ week_labels df <->
  exists i, 0 <= i /\
    i <= (week_end (index_max df) - week_end (index_min df)) / 7 /\
    w = week_end (index_min df) + 7 * i.
Proof.
  unfold week_labels. rewrite list_elem_of_fmap. split.
  - intros (i & -> & Hi). apply elem_of_seq in Hi. exists (Z.of_nat i).
    split_and!; [lia | lia | done].
  - intros (i & H0 & Hi & ->). exists (Z.to_nat i). split; [f_equal; lia|].
    apply elem_of_seq. lia.
Qed.

Lemma fridays_sorted (first : Z) (n start : nat) :
  StronglySorted Z.le
    (map (fun i => first + 7 * Z.of_nat i) (seq start n)).
Proof.
  revert start. induction n as [|n IH]; intros start; simpl; constructor;
    [apply IH|].
  apply Forall_forall. intros w (i & -> & Hi%elem_of_seq)%list_elem_of_fmap.
  lia.
Qed.

Lemma week_labels_sorted (df : frame) : StronglySorted Z.le (week_labels df).
Proof. apply fridays_sorted. Qed.

Lemma week_labels_NoDup (df : frame) : NoDup (week_labels df).
Proof.
  unfold week_labels. apply NoDup_fmap_2; [|apply NoDup_seq].
  intros i j H. lia.
Qed.

(** The week of every row is one of the bins. *)
Lemma row_week_in_labels (df : frame) (r : Z * f64) :
  r ∈ df -> week_end r.1 ∈ week_labels df.
Proof.
  intros Hr. apply elem_of_week_labels.
  pose proof (index_min_lower df r Hr) as Hlo.
  pose proof (index_max_upper df r Hr) as Hhi.
  destruct (week_end_step _ _ Hlo) as (i & Hi & E).
  destruct (week_end_step _ _ Hhi) as (j & Hj & E').
  exists i. split_and!; [done | | done].
  rewrite E', E. Z.div_mod_to_equations. lia.
Qed.

Lemma ascending_sorted (l : list Z) :
  ascending l = true -> StronglySorted Z.le l.
Proof.
  induction l as [|a l IH]; intros H; constructor.
  - apply IH. by apply ascending_head in H as [? _].
  - apply Forall_forall. by apply ascending_head in H as [_ ?].
Qed.

Lemma remove_dups_sorted (l : list Z) :
  StronglySorted Z.le l -> StronglySorted Z.le (remove_dups l).
Proof.
  induction 1 as [|a l Hl IH Ha]; simpl; [constructor|].
  case_decide; [done|]. constructor; [done|].
  rewrite Forall_forall in Ha |- *. intros x Hx. apply Ha. by apply elem_of_remove_dups.
Qed.

Lemma week_ends_sorted (l : list Z) :
  StronglySorted Z.le l -> StronglySorted Z.le (week_end <$> l).
Proof.
  induction 1 as [|a l Hl IH Ha]; simpl; constructor; [done|].
  rewrite Forall_forall in Ha |- *.
  intros x (d & -> & Hd)%list_elem_of_fmap. apply week_end_mono. by apply Ha.
Qed.

Lemma no_gap_spec (df : frame) (w : Z) :
  no_gap df = true -> w ∈ week_labels df ->
  exists r, r ∈ df /\ week_end r.1 = w.
Proof.
  unfold no_gap. rewrite forallb_forall. intros H Hw%list_elem_of_In.
  specialize (H w Hw). apply existsb_exists in H as (r & Hr & E).
  exists r. split; [by apply list_elem_of_In | lia].
Qed.

(** Without a gap the weeks that hold a trading day are the bins. *)
Lemma trading_weeks_labels (df : frame) :
  ascending df.*1 = true -> no_gap df = true ->
  trading_weeks df = week_labels df.
Proof.
  intros Hs Hg. unfold trading_weeks.
  apply (StronglySorted_unique_strong Z.le).
  - intros; lia.
  - by apply remove_dups_sorted, week_ends_sorted, ascending_sorted.
  - apply week_labels_sorted.
  - apply NoDup_Permutation;
      [apply NoDup_remove_dups | apply week_labels_NoDup |].
    intros w. rewrite elem_of_remove_dups. split.
    + intros (d & -> & (r & -> & Hr)%list_elem_of_fmap)%list_elem_of_fmap.
      by apply row_week_in_labels.
    + intros Hw. destruct (no_gap_spec df w Hg Hw) as (r & Hr & <-).
      apply list_elem_of_fmap. exists r.1. split; [done|].
      apply list_elem_of_fmap. by exists r.
Qed.

Lemma foldl_pick_later (w : Z) (l : frame) :
  weekday w = 4 -> StronglySorted Z.le l.*1 ->
  (forall r, r ∈ l -> notna r.2 = true) ->
  forall best,
  (forall b, best = Some b -> forall r, r ∈ l -> b.1 <= r.1) ->
  foldl (pick_later w) best l
  = match last (filter (fun r => week_end r.1 = w) l) with
    | Some r => Some r
    | None => best
    end.
Proof.
  intros Hw Hs Hna. induction l as [|x l IH]; intros best Hb; [done|].
  rewrite fmap_cons in Hs. apply StronglySorted_inv in Hs as [Hs Hx].
  rewrite Forall_forall in Hx.
  assert (forall r, r ∈ l -> x.1 <= r.1) as Hx'.
  { intros r Hr. apply Hx. apply list_elem_of_fmap. by exists r. }
  simpl foldl. rewrite filter_cons.
  assert (forall r, r ∈ l -> notna r.2 = true) as Hna'
    by (intros r Hr; apply Hna; by right).
  unfold pick_later at 2. rewrite (Hna x) by left. rewrite andb_true_r.
  case_decide as Hin.
  - apply week_end_bin in Hin as Hin'; [|done].
    replace ((w - 7 <? x.1) && (x.1 <=? w)) with true by lia.
    assert (match best with
            | Some b => if b.1 <=? x.1 then Some x else best
            | None => Some x
            end = Some x) as ->.
    { destruct best as [b|]; [|done].
      assert (b.1 <= x.1) by (apply (Hb b); [done | left]).
      by replace (b.1 <=? x.1) with true by lia. }
    rewrite IH; [|done|done|].
    + rewrite last_cons. by destruct (last _).
    + intros b [= <-]. done.
  - assert (~ (w - 7 < x.1 /\ x.1 <= w)) as Hout
      by (intros ?%week_end_bin; done).
    replace ((w - 7 <? x.1) && (x.1 <=? w)) with false by lia.
    apply IH; [done | done |].
    intros b E r Hr. apply (Hb b E). by right.
Qed.

Lemma bin_last_close_of_week (df : frame) (w : Z) :
  weekday w = 4 -> ascending df.*1 = true ->
  (forall r, r ∈ df -> notna r.2 = true) ->
  bin_last df w = close_of_week df w.
Proof.
  intros Hw Hs Hna. unfold bin_last, close_of_week.
  rewrite foldl_pick_later; [|done|by apply ascending_sorted|done|done].
  by destruct (last _).
Qed.

Lemma week_labels_friday (df : frame) (w : Z) :
  w ∈ week_labels df -> weekday w = 4.
Proof.
  intros (i & _ & _ & ->)%elem_of_week_labels.
  pose proof (week_end_friday (index_min df)) as H. revert H.
  generalize (week_end (index_min df)). intros f. unfold weekday.
  Z.div_mod_to_equations. lia.
Qed.

Lemma positive_closes_spec (df : frame) (r : Z * f64) :
  positive_closes df = true -> r ∈ df ->
  exists q, r.2 = Fin q /\ (0 < q)%Q.
Proof.
  unfold positive_closes. rewrite forallb_forall.
  intros H Hr%list_elem_of_In. specialize (H r Hr).
  destruct r.2 as [q| |]; [|done..]. exists q. split; [done|].
  apply negb_true_iff in H. apply Qnot_le_lt. intros Hle.
  apply Qle_bool_iff in Hle. congruence.
Qed.

Lemma resample_last_weekly_closes (df : frame) :
  ascending df.*1 = true -> no_gap df = true ->
  (forall r, r ∈ df -> notna r.2 = true) ->
  resample_last df = weekly_closes df.
Proof.
  intros Hs Hg Hna. unfold resample_last, weekly_closes.
  rewrite trading_weeks_labels by done.
  apply map_ext_in. intros w Hw%list_elem_of_In. f_equal.
  apply bin_last_close_of_week; [by eapply week_labels_friday | done | done].
Qed.

(** Each weekly close is the Close of a row of the frame. *)
Lemma weekly_closes_from_rows (df : frame) (cell : Z * f64) :
  cell ∈ weekly_closes df -> exists r, r ∈ df /\ cell.2 = r.2.
Proof.
  unfold weekly_closes, trading_weeks.
  intros (w & -> & Hw)%list_elem_of_fmap.
  rewrite elem_of_remove_dups in Hw.
  apply list_elem_of_fmap in Hw as (d & -> & (r & -> & Hr)%list_elem_of_fmap).
  simpl. unfold close_of_week.
  destruct (last (filter (fun r0 => week_end r0.1 = week_end r.1) df))
    as [r'|] eqn:E.
  - apply last_Some_elem_of in E. apply list_elem_of_filter in E as [_ E].
    by exists r'.
  - apply last_None in E.
    assert (r ∈ filter (fun r0 => week_end r0.1 = week_end r.1) df) as Hin
      by (by apply list_elem_of_filter).
    rewrite E in Hin. by apply elem_of_nil in Hin.
Qed.

Lemma ffill_from_valid (prev : f64) (cells : frame) :
  (forall c, c ∈ cells -> notna c.2 = true) -> ffill_from prev cells = cells.
Proof.
  revert prev. induction cells as [|[d x] cells IH]; intros prev H; [done|].
  simpl. assert (notna x = true) as Hx by (apply (H (d, x)); left).
  destruct x; [|  |done]; (f_equal; apply IH; intros c Hc; apply H; by right).
Qed.

Lemma returns_from_ratio (p : Q) (cells : frame) :
  (0 < p)%Q ->
  (forall c, c ∈ cells -> exists q, c.2 = Fin q /\ (0 < q)%Q) ->
  scale (Fin 100) (dropna (ratio_from (Fin p) cells))
  = returns_from (Fin p) cells.
Proof.
  revert p. induction cells as [|[d x] cells IH]; intros p Hp H; [done|].
  destruct (H (d, x)) as (q & Hq & Hqpos); [left|]. simpl in Hq. subst x.
  simpl ratio_from. simpl returns_from.
  assert (Qeq_bool p 0 = false) as Hp0.
  { destruct (Qeq_bool p 0) eqn:E; [|done].
    apply Qeq_bool_iff in E. rewrite E in Hp. by apply Qlt_irrefl in Hp. }
  unfold dropna. rewrite filter_cons_True.
  2:{ simpl. unfold fdiv. by rewrite Hp0. }
  unfold scale. rewrite map_cons. f_equal.
  apply IH; [done|]. intros c Hc. apply H. by right.
Qed.

Lemma length_returns_from (prev : f64) (cells : frame) :
  length (returns_from prev cells) = length cells.
Proof.
  revert prev. induction cells as [|[d x] cells IH]; intros prev; [done|].
  simpl. by rewrite IH.
Qed.

Lemma length_adjacent_returns (cells : frame) :
  length (adjacent_returns cells) = (length cells - 1)%nat.
Proof.
  destruct cells as [|[d x] cells]; [done|]. simpl.
  rewrite length_returns_from. lia.
Qed.

Lemma first_ratio_dropped (d : Z) (x : f64) (cells : frame) :
  dropna (ratio_from NaN ((d, x) :: cells))
  = dropna (ratio_from x cells).
Proof.
  simpl. unfold dropna. rewrite filter_cons_False; [done|].
  simpl. by destruct x.
Qed.

(** A series of one week has no return. *)
Lemma pct_change_single (pad : bool) (d : Z) (x : f64) :
  dropna (pct_change pad [(d, x)]) = [].
Proof.
  unfold pct_change. destruct pad; simpl; by destruct x.
Qed.

Lemma short_list_one_value (l : list Z) (x y : Z) :
  (length l < 2)%nat -> x ∈ l -> y ∈ l -> x = y.
Proof.
  destruct l as [|a [|b l]]; simpl; intros Hlen Hx Hy; [|  |lia].
  - by apply elem_of_nil in Hx.
  - apply list_elem_of_singleton in Hx, Hy. congruence.
Qed.

(** With a single trading week there is a single bin. *)
Lemma week_labels_single (df : frame) :
  df <> [] -> (length (trading_weeks df) < 2)%nat ->
  week_labels df = [week_end (index_min df)].
Proof.
  intros Hne Hlen.
  destruct (index_min_elem df Hne) as (a & Ha & Ea).
  destruct (index_max_elem df Hne) as (b & Hb & Eb).
  assert (forall r, r ∈ df -> week_end r.1 ∈ trading_weeks df) as Hin.
  { intros r Hr. unfold trading_weeks. apply elem_of_remove_dups.
    apply list_elem_of_fmap. exists r.1. split; [done|].
    apply list_elem_of_fmap. by exists r. }
  assert (week_end (index_max df) = week_end (index_min df)) as E.
  { rewrite <- Ea, <- Eb.
    apply (short_list_one_value (trading_weeks df)); auto. }
  unfold week_labels. rewrite E, Z.sub_diag. simpl. f_equal. lia.
Qed.

Lemma calculate_weekly_returns_nonempty (pad : bool) (data : frame) :
  data <> [] ->
  calculate_weekly_returns pad data
  = scale (Fin 100) (dropna (pct_change pad (resample_last data))).
Proof. by destruct data. Qed.

(** C2 as stated fails: on a series whose two trading days are two weeks
    apart there are 2 weekly closes, so 1 return is expected, but the code
    returns 2 rows when pct_change forward-fills the empty week (one of
    them the return 0 of that week) and no row when it does not. *)
Lemma calculate_weekly_returns_gap_counterexample :
  resample_last gap_prices
    = [(738890, Fin 100); (738897, NaN); (738904, Fin 110)] /\
  weekly_closes gap_prices = [(738890, Fin 100); (738904, Fin 110)] /\
  (calculate_weekly_returns true gap_prices).*1 = [738897; 738904] /\
  calculate_weekly_returns false gap_prices = [] /\
  length (weekly_closes gap_prices) = 2%nat /\
  length (adjacent_returns (weekly_closes gap_prices)) = 1%nat /\
  length (calculate_weekly_returns true gap_prices) = 2%nat /\
  length (calculate_weekly_returns false gap_prices) = 0%nat.
Proof. split_and!; vm_compute; reflexivity. Qed.

(** C2, amended.  For a price series with ascending dates and positive
    finite closes in which every week from the first to the last holds a
    trading day, calculate_weekly_returns returns the returns
    (curr/prev - 1) * 100 of adjacent weekly closes, one fewer than the
    weekly closes; and for every series that is empty or has fewer than 2
    weekly closes it returns the empty result. *)
Theorem calculate_weekly_returns_adjacent (pct_change_pad : bool)
    (data : frame) :
  (ascending data.*1 = true -> positive_closes data = true ->
   no_gap data = true ->
   calculate_weekly_returns pct_change_pad data
     = adjacent_returns (weekly_closes data) /\
   length (calculate_weekly_returns pct_change_pad data)
     = (length (weekly_closes data) - 1)%nat) /\
  (data = [] \/ (length (weekly_closes data) < 2)%nat ->
   calculate_weekly_returns pct_change_pad data = []).
Proof.
  split.
  - intros Hs Hpos Hg.
    assert (calculate_weekly_returns pct_change_pad data
            = adjacent_returns (weekly_closes data)) as E.
    { destruct (decide (data = [])) as [->|Hne]; [done|].
      assert (forall r, r ∈ data -> notna r.2 = true) as Hna.
      { intros r Hr. destruct (positive_closes_spec data r Hpos Hr)
          as (q & -> & _). done. }
      assert (forall c, c ∈ weekly_closes data ->
                exists q, c.2 = Fin q /\ (0 < q)%Q) as Hcells.
      { intros c Hc. destruct (weekly_closes_from_rows data c Hc)
          as (r & Hr & ->). by apply (positive_closes_spec data). }
      rewrite calculate_weekly_returns_nonempty by done.
      rewrite resample_last_weekly_closes by done.
      assert (pct_change pct_change_pad (weekly_closes data)
              = ratio_from NaN (weekly_closes data)) as ->.
      { unfold pct_change. destruct pct_change_pad; [|done].
        unfold ffill. rewrite ffill_from_valid; [done|].
        intros c Hc. by destruct (Hcells c Hc) as (q & -> & _). }
      destruct (weekly_closes data) as [|[d x] cells]; [done|].
      rewrite first_ratio_dropped.
      destruct (Hcells (d, x)) as (q & Hq & Hqpos); [left|].
      simpl in Hq. subst x. simpl adjacent_returns.
      apply returns_from_ratio; [done|]. intros c Hc. apply Hcells. by right. }
    split; [done|]. rewrite E. apply length_adjacent_returns.
  - intros [->|Hlen]; [done|].
    destruct (decide (data = [])) as [->|Hne]; [done|].
    rewrite calculate_weekly_returns_nonempty by done.
    unfold resample_last. rewrite week_labels_single; [|done|].
    + simpl map. by rewrite pct_change_single.
    + unfold weekly_closes in Hlen. by rewrite length_map in Hlen.
Qed.

Lemma calculate_weekly_returns_adjacent_witness :
  ascending sample_prices.*1 = true /\
  positive_closes sample_prices = true /\
  no_gap sample_prices = true /\
  weekly_closes sample_prices = [(738890, Fin 101); (738897, Fin 105)] /\
  calculate_weekly_returns true sample_prices
    = adjacent_returns (weekly_closes sample_prices) /\
  length (calculate_weekly_returns true sample_prices)
    = (length (weekly_closes sample_prices) - 1)%nat.
Proof.
  assert (ascending sample_prices.*1 = true) as H1 by reflexivity.
  assert (positive_closes sample_prices = true) as H2 by reflexivity.
  assert (no_gap sample_prices = true) as H3 by (vm_compute; reflexivity).
  split_and!; [done | done | done | vm_compute; reflexivity | |];
    apply (proj1 (calculate_weekly_returns_adjacent true sample_prices)
             H1 H2 H3).
Defined.

(** ** Further checks *)

Lemma py_truediv_Ok (x p : f64) :
  (forall q, p = Fin q -> ~ (q == 0)%Q) -> py_truediv x p = Ok (fdiv x p).
Proof.
  intros Hp. unfold py_truediv. destruct p as [q| |]; [|done..].
  destruct (Qeq_bool q 0) eqn:E; [|done].
  apply Qeq_bool_iff in E. by destruct (Hp q).
Qed.

Lemma bind_Ok_l {A B : Type} (a : A) (k : A -> result B) :
  (Ok a ≫= k) = k a.
Proof. reflexivity. Qed.

Lemma timedelta_days_Ok (n : Z) :
  Z.abs n <= 999999999 -> timedelta_days n = Ok n.
Proof.
  intros H. unfold timedelta_days.
  by replace (Z.abs n <=? 999999999) with true by lia.
Qed.

Lemma datetime_add_Ok (t : datetime) (days : Z) :
  1 <= dt_ordinal t + days <= MAXORDINAL ->
  datetime_add t days = Ok (mk_datetime (dt_ordinal t + days) (dt_micros t)).
Proof.
  intros H. unfold datetime_add.
  by replace ((1 <=? dt_ordinal t + days)
              && (dt_ordinal t + days <=? MAXORDINAL)) with true by lia.
Qed.

(** A record with the three numeric rates, a price other than zero and a
    target date within the range of datetime always yield a projection. *)
Lemma predict_future_week_price_returns today p stats k v vmx vmn a mx mn :
  stats !! "average" = Some v -> as_float v = Ok a ->
  stats !! "maximum" = Some vmx -> as_float vmx = Ok mx ->
  stats !! "minimum" = Some vmn -> as_float vmn = Ok mn ->
  (forall q, p = Fin q -> ~ (q == 0)%Q) ->
  1 <= k -> 1 <= dt_ordinal today ->
  dt_ordinal today + k * 7 + 6 <= MAXORDINAL ->
  exists r, predict_future_week_price today p stats k = Ok r.
Proof.
  intros Hv Ha Hvmx Hmx Hvmn Hmn Hp Hk Hlo Hhi.
  unfold predict_future_week_price. rewrite (guard_passes _ _ _ Hv Hk).
  assert (MAXORDINAL = 3652059) as HM by reflexivity.
  rewrite timedelta_days_Ok, bind_Ok_l by lia.
  rewrite datetime_add_Ok, bind_Ok_l by lia.
  cbn [dt_ordinal dt_micros].
  set (o := dt_ordinal today + k * 7).
  set (m := (4 - weekday o) `mod` 7).
  assert (0 <= m < 7) as Hm by (apply Z.mod_pos_bound; lia).
  set (t0 := mk_datetime o (dt_micros today)).
  assert (exists t, (if 0 <? m
            then delta ← timedelta_days m; datetime_add t0 delta
            else Ok t0) = Ok t) as (t & ->).
  { destruct (0 <? m); [|by eexists].
    rewrite timedelta_days_Ok, bind_Ok_l by lia.
    rewrite datetime_add_Ok by (simpl; lia). by eexists. }
  rewrite bind_Ok_l.
  unfold compound, getitem. rewrite Hv, Hvmx, Hvmn. rewrite !bind_Ok_l.
  rewrite Ha, Hmx, Hmn. rewrite !bind_Ok_l.
  unfold total_change. rewrite !py_truediv_Ok by done. rewrite !bind_Ok_l.
  by eexists.
Qed.

Lemma predict_future_week_price_returns_witness :
  exists r,
    predict_future_week_price sample_today (Fin 100) sample_stats 4 = Ok r.
Proof.
  apply (predict_future_week_price_returns sample_today (Fin 100)
           sample_stats 4 (VFloat (Fin 2)) (VFloat (Fin 5))
           (VFloat (Fin (-1))) (Fin 2) (Fin 5) (Fin (-1)));
    try reflexivity; try (vm_compute; discriminate).
  intros q [= <-]. discriminate.
Defined.

(** Weekly closes 100 and 105 give one weekly return of 5 percent, and the
    statistics of that single return have no standard deviation. *)
Example one_weekly_return :
  let data := [(738890, Fin 100); (738893, Fin 102); (738894, Fin 101);
               (738897, Fin 105)] in
  weekly_closes data = [(738890, Fin 100); (738897, Fin 105)] /\
  exists q,
    calculate_weekly_returns true data = [(738897, Fin q)] /\
    calculate_weekly_returns false data = [(738897, Fin q)] /\
    (q == 5)%Q /\
    calculate_statistics floor_sqrt [Fin q] !! "std_dev" = Some (VFloat NaN) /\
    calculate_statistics floor_sqrt [Fin q] !! "count" = Some (VInt 1).
Proof.
  split; [vm_compute; reflexivity|]. eexists.
  split_and!; try (vm_compute; reflexivity).
Qed.

(** * Further properties of the weekly return series *)

Lemma scale_index (c : f64) (l : frame) : (scale c l).*1 = l.*1.
Proof. induction l as [|[d x] l IH]; [done|]. simpl. f_equal. exact IH. Qed.

Lemma ratio_from_index (prev : f64) (l : frame) :
  (ratio_from prev l).*1 = l.*1.
Proof.
  revert prev. induction l as [|[d x] l IH]; intros prev; [done|].
  simpl. f_equal. apply IH.
Qed.

Lemma ffill_from_index (prev : f64) (l : frame) :
  (ffill_from prev l).*1 = l.*1.
Proof.
  revert prev. induction l as [|[d x] l IH]; intros prev; [done|].
  simpl. f_equal. apply IH.
Qed.

Lemma resample_last_index (df : frame) :
  (resample_last df).*1 = week_labels df.
Proof.
  unfold resample_last. induction (week_labels df) as [|w l IH]; [done|].
  simpl. f_equal. exact IH.
Qed.

Lemma pct_change_index (pad : bool) (l : frame) :
  (pct_change pad l).*1 = l.*1.
Proof.
  unfold pct_change. rewrite ratio_from_index.
  destruct pad; [apply ffill_from_index | done].
Qed.

(** The first row of [pct_change] is always NaN. *)
Lemma pct_change_head (pad : bool) (d : Z) (x : f64) (l : frame) :
  exists rest, pct_change pad ((d, x) :: l) = (d, NaN) :: rest.
Proof.
  unfold pct_change. destruct pad; simpl; eexists; f_equal; f_equal.
  - by destruct (if isna x then NaN else x).
  - by destruct x.
Qed.

Lemma sublist_fmap_2 {A B : Type} (f : A -> B) (l k : list A) :
  l `sublist_of` k -> f <$> l `sublist_of` f <$> k.
Proof.
  induction 1; simpl; [constructor | by apply sublist_skip
                                   | by apply sublist_cons].
Qed.

Lemma dropna_sublist (l : frame) : dropna l `sublist_of` l.
Proof. apply sublist_filter. Qed.

(** The index of the weekly returns is taken, in order, from the bin
    labels after the first. *)
Lemma weekly_returns_index (pad : bool) (data : frame) :
  (calculate_weekly_returns pad data).*1 `sublist_of` tail (week_labels data).
Proof.
  destruct data as [|r0 data0]; [apply sublist_nil_l|].
  rewrite calculate_weekly_returns_nonempty by done.
  rewrite scale_index, <- resample_last_index.
  destruct (resample_last (r0 :: data0)) as [|[d x] l];
    [destruct pad; apply sublist_nil_l|].
  destruct (pct_change_head pad d x l) as (rest & E).
  assert (rest.*1 = l.*1) as Hrest.
  { pose proof (pct_change_index pad ((d, x) :: l)) as H.
    rewrite E in H. rewrite !fmap_cons in H. by injection H. }
  rewrite E. unfold dropna. rewrite filter_cons_False by done.
  rewrite fmap_cons. cbn [tail]. rewrite <- Hrest.
  apply sublist_fmap_2, sublist_filter.
Qed.

Lemma fridays_sorted_lt (first : Z) (n start : nat) :
  StronglySorted Z.lt
    (map (fun i => first + 7 * Z.of_nat i) (seq start n)).
Proof.
  revert start. induction n as [|n IH]; intros start; simpl; constructor;
    [apply IH|].
  apply Forall_forall. intros w (i & -> & Hi%elem_of_seq)%list_elem_of_fmap.
  lia.
Qed.

Lemma StronglySorted_sublist {A : Type} (R : relation A) (l k : list A) :
  l `sublist_of` k -> StronglySorted R k -> StronglySorted R l.
Proof.
  induction 1 as [|x l k Hs IH|x l k Hs IH]; intros Hk; [done| |].
  - apply StronglySorted_inv in Hk as [Hk Hx]. constructor; [by apply IH|].
    rewrite Forall_forall in Hx |- *. intros y Hy. apply Hx.
    by eapply elem_of_sublist.
  - apply StronglySorted_inv in Hk as [Hk _]. by apply IH.
Qed.

Lemma tail_week_labels (df : frame) (w : Z) :
  w ∈ tail (week_labels df) ->
  weekday w = 4 /\
  week_end (index_min df) < w <= week_end (index_max df).
Proof.
  unfold week_labels. intros Hw.
  destruct (Z.to_nat _) as [|n] eqn:En; simpl in Hw;
    [by apply elem_of_nil in Hw|].
  apply list_elem_of_fmap in Hw as (j & -> & Hj%elem_of_seq).
  pose proof (week_end_friday (index_min df)) as Hf. revert Hf En.
  generalize (week_end (index_max df)) (week_end (index_min df)).
  intros l f Hf En. unfold weekday in *. split.
  - Z.div_mod_to_equations. lia.
  - split; [lia|]. Z.div_mod_to_equations. lia.
Qed.

(** X1.  The weekly return series never holds a NaN: whatever the input
    and the fill behaviour of pct_change, every value that
    calculate_weekly_returns returns is a number (finite or infinite). *)
Theorem calculate_weekly_returns_no_nan (pct_change_pad : bool)
    (data : frame) :
  Forall (fun r => isna r.2 = false)
    (calculate_weekly_returns pct_change_pad data).
Proof.
  destruct data as [|r0 data0]; [constructor|].
  rewrite calculate_weekly_returns_nonempty by done.
  apply Forall_forall. intros r Hr. unfold scale in Hr.
  apply list_elem_of_fmap in Hr as ([d x] & -> & Hx).
  apply list_elem_of_filter in Hx as [Hx _]. simpl in *.
  destruct x as [q|s|]; [done | | done].
  unfold fmul, inf_scaled. simpl. done.
Qed.

(** X2.  The dates of the weekly return series are Fridays in strictly
    increasing order, each after the Friday that closes the week of the
    earliest input date and none after the Friday that closes the week of
    the latest one; so the series has at most (number of weeks spanned - 1)
    rows. *)
Theorem calculate_weekly_returns_index (pct_change_pad : bool)
    (data : frame) :
  let dates := (calculate_weekly_returns pct_change_pad data).*1 in
  StronglySorted Z.lt dates /\
  Forall (fun d => weekday d = 4 /\
                   week_end (index_min data) < d <= week_end (index_max data))
    dates /\
  (Z.of_nat (length dates)
   <= (week_end (index_max data) - week_end (index_min data)) / 7).
Proof.
  intros dates. pose proof (weekly_returns_index pct_change_pad data) as Hsub.
  fold dates in Hsub. split_and!.
  - eapply StronglySorted_sublist; [exact Hsub|].
    unfold week_labels. destruct (Z.to_nat _) as [|n]; [constructor|].
    simpl. apply fridays_sorted_lt.
  - apply Forall_forall. intros d Hd. apply tail_week_labels.
    by eapply elem_of_sublist.
  - assert (week_end (index_min data) <= week_end (index_max data)) as Hle.
    { destruct (decide (data = [])) as [->|Hne]; [done|].
      destruct (index_min_elem data Hne) as (a & Ha & Ea).
      pose proof (index_max_upper data a Ha) as Hle. rewrite Ea in Hle.
      by apply week_end_mono. }
    apply sublist_length in Hsub. unfold week_labels in Hsub.
    destruct (Z.to_nat _) as [|n] eqn:En; simpl in Hsub.
    + exfalso. revert En Hle. Z.div_mod_to_equations. lia.
    + rewrite length_map, length_seq in Hsub. revert En Hle Hsub.
      Z.div_mod_to_equations. lia.
Qed.

(** The row a bin keeps is a row of the frame, or the bin is empty. *)
Lemma foldl_pick_later_row (w : Z) (l : frame) (best : option (Z * f64)) :
  foldl (pick_later w) best l = best \/
  exists r, r ∈ l /\ foldl (pick_later w) best l = Some r.
Proof.
  revert best. induction l as [|x l IH]; intros best; [by left|].
  simpl. destruct (IH (pick_later w best x)) as [E|(r & Hr & E)].
  - rewrite E. unfold pick_later.
    destruct (_ && _); [|by left].
    destruct best as [b|]; [destruct (b.1 <=? x.1); [|by left]|];
      right; exists x; (split; [left | done]).
  - right. exists r. split; [by right | done].
Qed.

Lemma bin_last_nan_or_positive (df : frame) (w : Z) :
  positive_closes df = true -> nan_or_positive (bin_last df w).
Proof.
  intros Hpos. unfold bin_last.
  destruct (foldl_pick_later_row w df None) as [->|(r & Hr & ->)];
    [by left|].
  right. by apply (positive_closes_spec df).
Qed.







(** Without a gap the series is the returns between adjacent weekly
    closes. *)
Lemma weekly_returns_adjacent_closes (pad : bool) (data : frame) :
  ascending data.*1 = true -> positive_closes data = true ->
  no_gap data = true ->
  calculate_weekly_returns pad data = adjacent_returns (weekly_closes data).
Proof.
  intros Hs Hpos Hg. destruct (decide (data = [])) as [->|Hne]; [done|].
  assert (forall r, r ∈ data -> notna r.2 = true) as Hna.
  { intros r Hr. by destruct (positive_closes_spec data r Hpos Hr)
      as (q & -> & _). }
  assert (forall c, c ∈ weekly_closes data ->
            exists q, c.2 = Fin q /\ (0 < q)%Q) as Hcells.
  { intros c Hc. destruct (weekly_closes_from_rows data c Hc)
      as (r & Hr & ->). by apply (positive_closes_spec data). }
  rewrite calculate_weekly_returns_nonempty by done.
  rewrite resample_last_weekly_closes by done.
  assert (pct_change pad (weekly_closes data)
          = ratio_from NaN (weekly_closes data)) as ->.
  { unfold pct_change. destruct pad; [|done].
    unfold ffill. rewrite ffill_from_valid; [done|].
    intros c Hc. by destruct (Hcells c Hc) as (q & -> & _). }
  destruct (weekly_closes data) as [|[d x] cells]; [done|].
  rewrite first_ratio_dropped.
  destruct (Hcells (d, x)) as (q & Hq & Hqpos); [left|].
  simpl in Hq. subst x. simpl adjacent_returns.
  apply returns_from_ratio; [done|]. intros c Hc. apply Hcells. by right.
Qed.

Lemma returns_from_lookup (cells : frame) :
  forall (d0 : Z) (prev0 : f64) (i : nat) d1 p d2 c,
  ((d0, prev0) :: cells) !! i = Some (d1, Fin p) ->
  cells !! i = Some (d2, Fin c) ->
  ~ (p == 0)%Q ->
  returns_from prev0 cells !! i = Some (d2, Fin ((c / p + - 1) * 100)).
Proof.
  induction cells as [|[e x] rest IH]; intros d0 prev0 i d1 p d2 c H1 H2 Hp;
    [done|].
  destruct i as [|j].
  - simpl in H1, H2. injection H1 as -> ->. injection H2 as -> ->.
    simpl. unfold fdiv.
    destruct (Qeq_bool p 0) eqn:E; [by apply Qeq_bool_iff in E|done].
  - simpl in H1, H2. simpl. by eapply IH.
Qed.

(** X4.  Round trip: for a series with ascending dates, positive closes and
    a trading day in every week, each weekly return rebuilds the next
    weekly close from the previous one, prev * (1 + r/100) = curr, and is
    dated at the later of the two week ends. *)
Theorem calculate_weekly_returns_round_trip (pct_change_pad : bool)
    (data : frame) (i : nat) (d1 d2 : Z) (prev curr : Q) :
  ascending data.*1 = true -> positive_closes data = true ->
  no_gap data = true ->
  weekly_closes data !! i = Some (d1, Fin prev) ->
  weekly_closes data !! S i = Some (d2, Fin curr) ->
  exists r,
    calculate_weekly_returns pct_change_pad data !! i = Some (d2, Fin r) /\
    (prev * (1 + r / 100) == curr)%Q.
Proof.
  intros Hs Hpos Hg H1 H2.
  rewrite weekly_returns_adjacent_closes by done.
  assert (0 < prev)%Q as Hprev.
  { apply list_elem_of_lookup_2 in H1.
    destruct (weekly_closes_from_rows data _ H1) as (r & Hr & E).
    destruct (positive_closes_spec data r Hpos Hr) as (q & Eq & Hq).
    simpl in E. rewrite Eq in E. by injection E as ->. }
  destruct (weekly_closes data) as [|[d0 c0] cells]; [done|].
  simpl in H2. simpl adjacent_returns.
  exists ((curr / prev + - 1) * 100)%Q. split.
  - eapply returns_from_lookup; [exact H1 | exact H2 | lra].
  - field. lra.
Qed.

Lemma calculate_weekly_returns_round_trip_witness :
  ascending sample_prices.*1 = true /\
  positive_closes sample_prices = true /\
  no_gap sample_prices = true /\
  weekly_closes sample_prices !! 0%nat = Some (738890, Fin 101) /\
  weekly_closes sample_prices !! 1%nat = Some (738897, Fin 105) /\
  exists r,
    calculate_weekly_returns true sample_prices !! 0%nat
      = Some (738897, Fin r) /\
    (101 * (1 + r / 100) == 105)%Q.
Proof.
  assert (ascending sample_prices.*1 = true) as H1 by reflexivity.
  assert (positive_closes sample_prices = true) as H2 by reflexivity.
  assert (no_gap sample_prices = true) as H3 by (vm_compute; reflexivity).
  assert (weekly_closes sample_prices !! 0%nat = Some (738890, Fin 101))
    as H4 by (vm_compute; reflexivity).
  assert (weekly_closes sample_prices !! 1%nat = Some (738897, Fin 105))
    as H5 by (vm_compute; reflexivity).
  split_and!; [done..|].
  exact (calculate_weekly_returns_round_trip true sample_prices 0
           738890 738897 101 105 H1 H2 H3 H4 H5).
Defined.

(** A bin that holds a row with a Close keeps one. *)
Lemma foldl_pick_later_Some (w : Z) (l : frame) (best : option (Z * f64)) :
  is_Some best \/
  (exists r, r ∈ l /\ w - 7 < r.1 <= w /\ notna r.2 = true) ->
  is_Some (foldl (pick_later w) best l).
Proof.
  revert best. induction l as [|x l IH]; intros best H.
  - destruct H as [H|(r & Hr & _)]; [done | by apply elem_of_nil in Hr].
  - simpl. apply IH. destruct H as [[b ->]|(r & Hr & Hbin & Hna)].
    + left. unfold pick_later. destruct (_ && _); [|done].
      by destruct (b.1 <=? x.1).
    + apply elem_of_cons in Hr as [->|Hr]; [|right; by exists r].
      left. unfold pick_later. rewrite Hna.
      replace ((w - 7 <? x.1) && (x.1 <=? w)) with true by lia. simpl.
      destruct best as [b|]; [by destruct (b.1 <=? x.1) | done].
Qed.

Lemma ffill_from_positive (p : Q) (l : frame) :
  (0 < p)%Q -> Forall (fun c => nan_or_positive c.2) l ->
  Forall (fun c => exists q, c.2 = Fin q /\ (0 < q)%Q) (ffill_from (Fin p) l).
Proof.
  revert p. induction l as [|[d x] l IH]; intros p Hp Hl; [constructor|].
  apply Forall_cons in Hl as [Hx Hl]. simpl in Hx. simpl.
  destruct Hx as [->|(q & -> & Hq)]; simpl.
  - constructor; [by exists p | by apply IH].
  - constructor; [by exists q | by apply IH].
Qed.

Lemma ratio_from_positive_valid (p : Q) (l : frame) :
  (0 < p)%Q -> Forall (fun c => exists q, c.2 = Fin q /\ (0 < q)%Q) l ->
  dropna (ratio_from (Fin p) l) = ratio_from (Fin p) l.
Proof.
  revert p. induction l as [|[d x] l IH]; intros p Hp Hl; [done|].
  apply Forall_cons in Hl as [(q & Hx & Hq) Hl]. simpl in Hx. subst x.
  simpl. unfold dropna. rewrite filter_cons_True.
  - f_equal. by apply IH.
  - simpl. unfold fdiv. destruct (Qeq_bool p 0) eqn:E; [|done].
    apply Qeq_bool_iff in E. rewrite E in Hp. by apply Qlt_irrefl in Hp.
Qed.

(** X5.  When pct_change forward-fills, a series of positive closes yields
    one return for every week after the first, the weeks without a trading
    day included: the number of rows is the number of weeks from the first
    to the last date, less one. *)
Theorem calculate_weekly_returns_pad_length (data : frame) :
  data <> [] -> positive_closes data = true ->
  Z.of_nat (length (calculate_weekly_returns true data))
  = (week_end (index_max data) - week_end (index_min data)) / 7.
Proof.
  intros Hne Hpos.
  rewrite calculate_weekly_returns_nonempty by done.
  unfold scale. rewrite length_map.
  assert (Forall (fun c => nan_or_positive c.2) (resample_last data)) as Hcells.
  { unfold resample_last. apply Forall_fmap, Forall_forall. intros w _.
    by apply bin_last_nan_or_positive. }
  destruct (index_min_elem data Hne) as (a & Ha & Ea).
  pose proof (index_max_upper data a Ha) as Hle. rewrite Ea in Hle.
  apply week_end_mono in Hle.
  assert (length (resample_last data)
          = Z.to_nat ((week_end (index_max data)
                       - week_end (index_min data)) / 7 + 1)) as Hlen.
  { unfold resample_last, week_labels. by rewrite !length_map, length_seq. }
  assert (exists q rest, resample_last data
            = (week_end (index_min data), Fin q) :: rest /\ (0 < q)%Q)
    as (q & rest & E & Hq).
  { unfold resample_last, week_labels in *.
    destruct (Z.to_nat _) as [|n] eqn:En.
    { exfalso. revert En Hle. Z.div_mod_to_equations. lia. }
    simpl. rewrite Z.add_0_r.
    assert (is_Some (foldl (pick_later (week_end (index_min data))) None data))
      as [r Hr].
    { apply foldl_pick_later_Some. right. exists a. split; [done|]. split.
      - apply week_end_bin; [apply week_end_friday | by rewrite Ea].
      - by destruct (positive_closes_spec data a Hpos Ha) as (c & -> & _). }
    destruct (foldl_pick_later_row (week_end (index_min data)) data None)
      as [E|(r' & Hr' & E)]; [congruence|].
    destruct (positive_closes_spec data r' Hpos Hr') as (c & Ec & Hc).
    exists c. eexists. split; [|done]. f_equal. f_equal.
    unfold bin_last. by rewrite E. }
  rewrite E in Hcells, Hlen. apply Forall_cons in Hcells as [_ Hrest].
  unfold pct_change, ffill. rewrite E. simpl ffill_from.
  rewrite first_ratio_dropped.
  rewrite ratio_from_positive_valid; [|done|by apply ffill_from_positive].
  rewrite <- (length_fmap fst), ratio_from_index, ffill_from_index, length_fmap.
  simpl in Hlen. revert Hlen Hle. Z.div_mod_to_equations. lia.
Qed.

Lemma calculate_weekly_returns_pad_length_witness :
  gap_prices <> [] /\ positive_closes gap_prices = true /\
  (week_end (index_max gap_prices) - week_end (index_min gap_prices)) / 7 = 2
  /\ Z.of_nat (length (calculate_weekly_returns true gap_prices))
     = (week_end (index_max gap_prices) - week_end (index_min gap_prices)) / 7.
Proof.
  assert (gap_prices <> []) as H1 by discriminate.
  assert (positive_closes gap_prices = true) as H2 by reflexivity.
  split_and!; [done | done | reflexivity |].
  exact (calculate_weekly_returns_pad_length gap_prices H1 H2).
Defined.

(** * Further properties of the statistics *)





Lemma calculate_statistics_lookup (np_sqrt : Q -> Q) (returns : list f64) :
  returns <> [] ->
  let stats := calculate_statistics np_sqrt returns in
  stats !! "average" = Some (VFloat (series_mean returns)) /\
  stats !! "minimum" = Some (VFloat (series_min returns)) /\
  stats !! "maximum" = Some (VFloat (series_max returns)).
Proof.
  intros H. destruct returns as [|x l]; [done|].
  unfold calculate_statistics. split_and!; by simplify_map_eq.
Qed.



(** * Further properties of the projection *)

(** X7.  predict_future_week_price returns the empty dict exactly when
    weeks_ahead < 1 or the record has no 'average' (an empty record
    included); in every other case it raises or returns a record that is
    not empty. *)
Theorem predict_future_week_price_empty_iff today p stats k :
  predict_future_week_price today p stats k = Ok ∅ <->
  k < 1 \/ stats !! "average" = None.
Proof.
  split; [|apply predict_future_week_price_guard].
  intros H. destruct (decide (k < 1)) as [|Hk]; [by left|]. right.
  destruct (stats !! "average") as [v|] eqn:Hv; [|done]. exfalso.
  assert (1 <= k) as Hk' by lia.
  destruct (predict_future_week_price_Ok _ _ _ _ _ _ Hv Hk' H)
    as (a & vmx & mx & vmn & mn & _ & _ & _ & _ & _ & _ & Hr).
  cbv zeta in Hr.
  assert ((∅ : dict) !! "current_price" = Some (VFloat p)) as Hl
    by (rewrite Hr; by simplify_map_eq).
  by rewrite lookup_empty in Hl.
Qed.

(** X8.  The three percentage changes of a projection do not depend on the
    current price: for a finite price other than zero and a finite rate,
    each change is ((1 + rate/100)^weeks_ahead - 1) * 100, and for one week
    it is the rate itself. *)
Theorem predict_future_week_price_change_of_rate
    today p stats k v vmx vmn a mx mn r :
  stats !! "average" = Some v -> as_float v = Ok (Fin a) ->
  stats !! "maximum" = Some vmx -> as_float vmx = Ok (Fin mx) ->
  stats !! "minimum" = Some vmn -> as_float vmn = Ok (Fin mn) ->
  1 <= k ->
  predict_future_week_price today (Fin p) stats k = Ok r ->
  exists ec oc pc,
    r !! "expected_change" = Some (VFloat (Fin ec)) /\
    r !! "optimistic_change" = Some (VFloat (Fin oc)) /\
    r !! "pessimistic_change" = Some (VFloat (Fin pc)) /\
    (ec == ((1 + a / 100) ^ k - 1) * 100)%Q /\
    (oc == ((1 + mx / 100) ^ k - 1) * 100)%Q /\
    (pc == ((1 + mn / 100) ^ k - 1) * 100)%Q /\
    (k = 1 -> (ec == a /\ oc == mx /\ pc == mn)%Q).
Proof.
  intros Hv Ha Hvmx Hmx Hvmn Hmn Hk H.
  destruct (predict_future_week_price_Ok _ _ _ _ _ _ Hv Hk H)
    as (a' & vmx' & mx' & vmn' & mn' & Ha' & Hvmx' & Hmx' & Hvmn' & Hmn'
        & Hp & Hr).
  cbv zeta in Hr.
  assert (a' = Fin a) as -> by congruence.
  assert (mx' = Fin mx) as -> by congruence.
  assert (mn' = Fin mn) as -> by congruence.
  assert (~ (p == 0)%Q) as Hp0 by (by apply Hp).
  assert (Qeq_bool p 0 = false) as Hb.
  { destruct (Qeq_bool p 0) eqn:E; [by apply Qeq_bool_iff in E | done]. }
  assert (forall x : Q,
    fmul (fsub (fdiv (fmul (Fin p)
      (fpow (fadd (Fin 1) (fdiv (Fin x) (Fin 100))) k)) (Fin p)) (Fin 1))
      (Fin 100)
    = Fin ((p * (1 + x / 100) ^ k / p + - 1) * 100)) as Hchange.
  { intros x. cbn [fmul fpow fadd fsub fneg]. unfold fdiv at 2.
    change (Qeq_bool 100 0) with false. cbv iota.
    cbn [fmul fpow fadd fsub fneg]. unfold fdiv. rewrite Hb.
    reflexivity. }
  exists ((p * (1 + a / 100) ^ k / p + - 1) * 100)%Q,
    ((p * (1 + mx / 100) ^ k / p + - 1) * 100)%Q,
    ((p * (1 + mn / 100) ^ k / p + - 1) * 100)%Q.
  subst r. split_and!.
  - rewrite <- Hchange. reflexivity.
  - rewrite <- Hchange. reflexivity.
  - rewrite <- Hchange. reflexivity.
  - field. done.
  - field. done.
  - field. done.
  - intros ->. rewrite !Qpower_1_r. split_and!; field; done.
Qed.

Lemma predict_future_week_price_change_of_rate_witness :
  predict_future_week_price sample_today (Fin 100) sample_stats 4
    = Ok sample_projection /\
  exists ec,
    sample_projection !! "expected_change" = Some (VFloat (Fin ec)) /\
    (ec == ((1 + 2 / 100) ^ 4 - 1) * 100)%Q.
Proof.
  assert (predict_future_week_price sample_today (Fin 100) sample_stats 4
          = Ok sample_projection) as H
    by (apply is_ok_unwrap; vm_compute; reflexivity).
  split; [done|].
  destruct (predict_future_week_price_change_of_rate
              sample_today 100%Q sample_stats 4
              (VFloat (Fin 2)) (VFloat (Fin 5)) (VFloat (Fin (-1)))
              2%Q 5%Q (-1)%Q sample_projection
              eq_refl eq_refl eq_refl eq_refl eq_refl eq_refl
              ltac:(lia) H)
    as (ec & oc & pc & Hec & _ & _ & Eec & _).
  exists ec. split; [exact Hec | exact Eec].
Defined.

(** X9.  The target date of a projection is the first Friday on or after
    today + weeks_ahead * 7 days: it is at most 6 days later, it is that
    very day when that day is a Friday, it keeps the time of day of today,
    and target_date_str is its rendering. *)
Theorem predict_future_week_price_target_within_week
    today p stats k v r :
  stats !! "average" = Some v -> 1 <= k ->
  predict_future_week_price today p stats k = Ok r ->
  exists target,
    r !! "target_date" = Some (VDatetime target) /\
    r !! "target_date_str" = Some (VStr (strftime_B_d_Y target)) /\
    dt_micros target = dt_micros today /\
    0 <= dt_ordinal target - (dt_ordinal today + k * 7) <= 6 /\
    (weekday (dt_ordinal today + k * 7) = 4 ->
     dt_ordinal target = dt_ordinal today + k * 7) /\
    1 <= dt_ordinal target <= MAXORDINAL.
Proof.
  intros Hv Hk H. pose proof H as H'.
  destruct (predict_future_week_price_Ok _ _ _ _ _ _ Hv Hk H)
    as (a & vmx & mx & vmn & mn & _ & _ & _ & _ & _ & _ & Hr).
  cbv zeta in Hr. exists (friday_on_or_after today (k * 7)).
  split; [by subst r|]. split; [by subst r|]. split; [done|].
  split; [|split].
  - unfold friday_on_or_after, weekday. simpl. Z.div_mod_to_equations. lia.
  - unfold friday_on_or_after, weekday. simpl. Z.div_mod_to_equations. lia.
  - unfold predict_future_week_price in H'.
    rewrite (guard_passes _ _ _ Hv Hk) in H'.
    bind_inv H'. bind_inv H'. bind_inv H'. clear H'.
    unfold timedelta_days in E. destruct (_ <=? _) in E; [|done].
    injection E as <-.
    pose proof (target_date_Ok _ _ _ _ E0 E1) as <-.
    unfold datetime_add in E0, E1.
    destruct (_ && _) eqn:B0 in E0; [|done]. injection E0 as <-.
    simpl in *. destruct (0 <? _) in E1.
    + bind_inv E1. destruct (_ && _) eqn:B1 in E1; [|done].
      injection E1 as <-. simpl. lia.
    + injection E1 as <-. simpl. lia.
Qed.

Lemma predict_future_week_price_target_within_week_witness :
  sample_stats !! "average" = Some (VFloat (Fin 2)) /\ 1 <= 4 /\
  predict_future_week_price sample_today (Fin 100) sample_stats 4
    = Ok sample_projection /\
  exists target,
    sample_projection !! "target_date" = Some (VDatetime target) /\
    sample_projection !! "target_date_str"
      = Some (VStr (strftime_B_d_Y target)) /\
    dt_micros target = dt_micros sample_today /\
    0 <= dt_ordinal target - (dt_ordinal sample_today + 4 * 7) <= 6 /\
    (weekday (dt_ordinal sample_today + 4 * 7) = 4 ->
     dt_ordinal target = dt_ordinal sample_today + 4 * 7) /\
    1 <= dt_ordinal target <= MAXORDINAL.
Proof.
  assert (sample_stats !! "average" = Some (VFloat (Fin 2))) as H1
    by reflexivity.
  assert (1 <= 4) as H2 by lia.
  assert (predict_future_week_price sample_today (Fin 100) sample_stats 4
          = Ok sample_projection) as H3
    by (apply is_ok_unwrap; vm_compute; reflexivity).
  split_and!; [done | done | done |].
  exact (predict_future_week_price_target_within_week _ _ _ _ _ _ H1 H2 H3).
Defined.
(** A returned projection that is not the empty one has the thirteen keys. *)
Lemma projection_dom today p stats k v r :
  stats !! "average" = Some v -> 1 <= k ->
  predict_future_week_price today p stats k = Ok r ->
  dom r = projection_keys.
Proof.
  intros Hv Hk H.
  destruct (predict_future_week_price_Ok _ _ _ _ _ _ Hv Hk H)
    as (a & vmx & mx & vmn & mn & _ & _ & _ & _ & _ & _ & Hr).
  cbv zeta in Hr. rewrite Hr. rewrite !dom_insert_L, dom_empty_L.
  unfold projection_keys. set_solver.
Qed.

Lemma add_period_info_lookup (pd : frame) (stats : dict) (key : string) :
  key <> "data_start" -> key <> "data_end" -> key <> "years_of_data" ->
  add_period_info pd stats !! key = stats !! key.
Proof. intros. unfold add_period_info. by simplify_map_eq. Qed.

(** X10.  The record calculate_statistics returns for a non-empty series,
    also after calculate_multi_timeframe_stats has added its three fields,
    is always accepted by predict_future_week_price: with a price other
    than zero, weeks_ahead >= 1 and a target date within the range of
    datetime, the call raises no KeyError or TypeError and returns a record
    with all thirteen keys. *)
Theorem predict_future_week_price_on_statistics
    today p (np_sqrt : Q -> Q) (returns : list f64) (period_data : frame) k :
  returns <> [] ->
  (forall q, p = Fin q -> ~ (q == 0)%Q) ->
  1 <= k -> 1 <= dt_ordinal today ->
  dt_ordinal today + k * 7 + 6 <= MAXORDINAL ->
  let stats := calculate_statistics np_sqrt returns in
  (exists r, predict_future_week_price today p stats k = Ok r /\
             dom r = projection_keys) /\
  (exists r, predict_future_week_price today p
               (add_period_info period_data stats) k = Ok r /\
             dom r = projection_keys).
Proof.
  intros Hne Hp Hk Hlo Hhi stats.
  destruct (calculate_statistics_lookup np_sqrt returns Hne)
    as (Ha & Hmn & Hmx). fold stats in Ha, Hmn, Hmx.
  split.
  - destruct (predict_future_week_price_returns today p stats k
                _ _ _ _ _ _ Ha eq_refl Hmx eq_refl Hmn eq_refl Hp Hk Hlo Hhi)
      as (r & Hr).
    exists r. split; [exact Hr|]. exact (projection_dom _ _ _ _ _ _ Ha Hk Hr).
  - assert (forall key v, key <> "data_start" -> key <> "data_end" ->
              key <> "years_of_data" -> stats !! key = Some v ->
              add_period_info period_data stats !! key = Some v) as Hadd.
    { intros key v ? ? ? E. by rewrite add_period_info_lookup. }
    assert (add_period_info period_data stats !! "average"
            = Some (VFloat (series_mean returns))) as Ha' by (by apply Hadd).
    assert (add_period_info period_data stats !! "maximum"
            = Some (VFloat (series_max returns))) as Hmx' by (by apply Hadd).
    assert (add_period_info period_data stats !! "minimum"
            = Some (VFloat (series_min returns))) as Hmn' by (by apply Hadd).
    destruct (predict_future_week_price_returns today p
                (add_period_info period_data stats) k _ _ _ _ _ _
                Ha' eq_refl Hmx' eq_refl Hmn' eq_refl Hp Hk Hlo Hhi)
      as (r & Hr).
    exists r. split; [exact Hr|].
    exact (projection_dom _ _ _ _ _ _ Ha' Hk Hr).
Qed.

Lemma predict_future_week_price_on_statistics_witness :
  [Fin 1; Fin 3] <> [] /\ 1 <= 4 /\ 1 <= dt_ordinal sample_today /\
  dt_ordinal sample_today + 4 * 7 + 6 <= MAXORDINAL /\
  exists r,
    predict_future_week_price sample_today (Fin 100)
      (calculate_statistics floor_sqrt [Fin 1; Fin 3]) 4 = Ok r /\
    dom r = projection_keys.
Proof.
  assert ([Fin 1; Fin 3] <> []) as H1 by discriminate.
  assert (forall q, Fin 100 = Fin q -> ~ (q == 0)%Q) as H2
    by (intros q [= <-]; discriminate).
  assert (1 <= 4) as H3 by lia.
  assert (1 <= dt_ordinal sample_today) as H4 by (vm_compute; discriminate).
  assert (dt_ordinal sample_today + 4 * 7 + 6 <= MAXORDINAL) as H5
    by (vm_compute; discriminate).
  split_and!; [done | done | done | done |].
  exact (proj1 (predict_future_week_price_on_statistics sample_today (Fin 100)
                  floor_sqrt [Fin 1; Fin 3] [] 4 H1 H2 H3 H4 H5)).
Defined.
(** ** The timeframes *)

Lemma getlabel_elem (results : list (string * dict)) k v :
  NoDup results.*1 -> (k, v) ∈ results -> getlabel results k = Some v.
Proof.
  induction results as [|[k' v'] rest IH]; intros Hnd Hin;
    [by apply elem_of_nil in Hin|].
  rewrite fmap_cons in Hnd. apply NoDup_cons in Hnd as [Hk Hnd].
  simpl. apply elem_of_cons in Hin as [Heq|Hin].
  - injection Heq as -> ->. by rewrite String.eqb_refl.
  - destruct (String.eqb_spec k' k) as [->|_]; [|by apply IH].
    exfalso. apply Hk. apply list_elem_of_fmap. by exists (k, v).
Qed.

Lemma getlabel_Some_elem (results : list (string * dict)) k v :
  getlabel results k = Some v -> (k, v) ∈ results.
Proof.
  induction results as [|[k' v'] rest IH]; [discriminate|].
  simpl. destruct (String.eqb_spec k' k) as [->|_].
  - intros [= ->]. left.
  - intros E. right. by apply IH.
Qed.

Lemma getlabel_present (results : list (string * dict)) k :
  match getlabel results k with Some _ => true | None => false end = true ->
  getlabel results k = Some (default ∅ (getlabel results k)).
Proof. by destruct (getlabel results k). Qed.

(** Where a record of the result comes from. *)
Lemma timeframe_entry_origin date_offset_years pct_change_pad np_sqrt
    full_data results label stats :
  calculate_multi_timeframe_stats date_offset_years pct_change_pad np_sqrt
    full_data = Ok results ->
  (label, stats) ∈ results ->
  exists years period_data,
    (label, years) ∈ timeframes /\
    get_timeframe_data date_offset_years full_data years = Ok period_data /\
    period_data <> [] /\
    calculate_weekly_returns pct_change_pad period_data <> [] /\
    stats = add_period_info period_data
              (calculate_statistics np_sqrt
                 (calculate_weekly_returns pct_change_pad period_data).*2).
Proof.
  intros H Hin. unfold calculate_multi_timeframe_stats in H.
  assert (NoDup timeframes.*1) as Hnd
    by (apply (bool_decide_unpack _); vm_compute; exact I).
  assert (forall l, l ∈ timeframes.*1 -> l ∉ ([] : list (string * dict)).*1)
    as Hfresh by (intros l _; apply not_elem_of_nil).
  destruct (for_each_body_spec _ _ _ _ _ _ _ H Hnd Hfresh)
    as [(added & -> & Hsub) Hall].
  rewrite app_nil_l in *.
  assert (label ∈ added.*1) as Hlabel
    by (apply list_elem_of_fmap; by exists (label, stats)).
  assert (label ∈ timeframes.*1) as Htf by (by eapply elem_of_sublist).
  apply list_elem_of_fmap in Htf as ([label' years] & -> & Htf). simpl in *.
  destruct (Hall _ _ Htf) as (pd & Hpd & Habsent & Hpresent).
  exists years, pd.
  destruct pd as [|r rest] eqn:Epd; [exfalso; by apply Habsent; [left|]|].
  destruct (calculate_weekly_returns pct_change_pad (r :: rest)) eqn:Ew;
    [exfalso; by apply Habsent; [right|]|].
  assert (NoDup added.*1) as Hnd'
    by (eapply sublist_NoDup; [exact Hnd | exact Hsub]).
  pose proof (getlabel_elem _ _ _ Hnd' Hin) as Hget.
  rewrite Hpresent in Hget by done. injection Hget as <-.
  by split_and!.
Qed.

Lemma sublist_filter {A} (P : A -> Prop) `{forall x, Decision (P x)}
    (l : list A) :
  filter P l `sublist_of` l.
Proof.
  induction l as [|x l IH]; [done|].
  rewrite filter_cons. destruct (decide (P x)).
  - by apply sublist_skip.
  - by apply sublist_cons.
Qed.

(** What every slice has in common with the frame it is cut from. *)
Lemma get_timeframe_data_within date_offset_years full_data years slice :
  get_timeframe_data date_offset_years full_data years = Ok slice ->
  slice `sublist_of` full_data /\
  (slice <> [] ->
   index_max slice = index_max full_data /\
   index_min full_data <= index_min slice <= index_max full_data).
Proof.
  intros H.
  assert (slice `sublist_of` full_data) as Hsub.
  { destruct full_data as [|x df]; [by injection H as <-|].
    destruct years as [n|]; [|by injection H as <-].
    unfold get_timeframe_data in H. bind_inv H. injection H as <-.
    apply sublist_filter. }
  split; [done|]. intros Hne.
  assert (index_max slice = index_max full_data) as Hmax.
  { destruct full_data as [|x df]; [by injection H as <-|].
    destruct years as [n|]; [|by injection H as <-].
    unfold get_timeframe_data in H. bind_inv H. injection H as <-.
    by apply index_max_filter_from. }
  split; [done|].
  destruct (index_min_elem slice Hne) as (r & Hr & <-).
  split.
  - apply index_min_lower. by eapply elem_of_sublist.
  - apply index_max_upper. by eapply elem_of_sublist.
Qed.

(** X11.  For every frame, in any order, and every offset, the slice
    get_timeframe_data returns is a subsequence of the input; a slice that
    is not empty ends on the latest date of the input and starts no earlier
    than the input does; and when the start date lies on or before the
    latest date of a non-empty input, the slice is not empty. *)
Theorem get_timeframe_data_keeps_latest
    (date_offset_years : Z -> Z -> result Z) (full_data : frame)
    (years : option Z) (slice : frame) :
  get_timeframe_data date_offset_years full_data years = Ok slice ->
  slice `sublist_of` full_data /\
  (slice <> [] ->
   index_max slice = index_max full_data /\
   index_min full_data <= index_min slice <= index_max full_data) /\
  (forall n start_date,
     full_data <> [] -> years = Some n ->
     date_offset_years (index_max full_data) n = Ok start_date ->
     start_date <= index_max full_data ->
     slice <> []).
Proof.
  intros H.
  destruct (get_timeframe_data_within _ _ _ _ H) as [Hsub Hrest].
  split_and!; [done | done |].
  intros n start_date Hne -> Hstart Hle.
  destruct full_data as [|x df]; [done|].
  unfold get_timeframe_data in H. rewrite Hstart in H. simpl in H.
  injection H as <-.
  destruct (index_max_elem (x :: df) Hne) as (r & Hr & Er).
  intros Hempty.
  assert (r ∈ filter (fun r : Z * f64 => start_date <= r.1) (x :: df)) as Hin
    by (apply list_elem_of_filter; split; [lia | done]).
  rewrite Hempty in Hin. by apply elem_of_nil in Hin.
Qed.

Lemma get_timeframe_data_keeps_latest_witness :
  get_timeframe_data minus_years sparse_prices (Some 1)
    = Ok [(ymd2ord 2024 1 8, Fin 60)] /\
  [(ymd2ord 2024 1 8, Fin 60)] `sublist_of` sparse_prices /\
  index_max [(ymd2ord 2024 1 8, Fin 60)] = index_max sparse_prices.
Proof.
  assert (get_timeframe_data minus_years sparse_prices (Some 1)
          = Ok [(ymd2ord 2024 1 8, Fin 60)]) as H by (vm_compute; reflexivity).
  destruct (get_timeframe_data_keeps_latest _ _ _ _ H) as (H1 & H2 & _).
  split_and!; [exact H | exact H1 | exact (proj1 (H2 ltac:(discriminate)))].
Defined.

(** X12.  Every record calculate_multi_timeframe_stats returns has exactly
    the eight keys average, minimum, maximum, std_dev, count, data_start,
    data_end, years_of_data; its data_end is the latest date of the whole
    input, whatever the timeframe; its data_start lies between the earliest
    and the latest date of the input; and its count is at least one. *)
Theorem calculate_multi_timeframe_stats_records
    (date_offset_years : Z -> Z -> result Z) (pct_change_pad : bool)
    (np_sqrt : Q -> Q) (full_data : frame) (results : list (string * dict))
    (label : string) (stats : dict) :
  calculate_multi_timeframe_stats date_offset_years pct_change_pad np_sqrt
    full_data = Ok results ->
  (label, stats) ∈ results ->
  dom stats = timeframe_record_keys /\
  stats !! "data_end" = Some (VTimestamp (index_max full_data)) /\
  exists data_start count,
    stats !! "data_start" = Some (VTimestamp data_start) /\
    index_min full_data <= data_start <= index_max full_data /\
    stats !! "count" = Some (VInt count) /\ 1 <= count.
Proof.
  intros H Hin.
  destruct (timeframe_entry_origin _ _ _ _ _ _ _ H Hin)
    as (years & pd & _ & Hpd & Hne & Hw & ->).
  destruct (get_timeframe_data_within _ _ _ _ Hpd) as [_ Hslice].
  destruct (Hslice Hne) as [Hmax Hmin].
  destruct (calculate_weekly_returns pct_change_pad pd) as [|w ws] eqn:Ew;
    [done|].
  split_and!.
  - unfold add_period_info, calculate_statistics. simpl.
    rewrite !dom_insert_L, dom_empty_L. unfold timeframe_record_keys.
    set_solver.
  - unfold add_period_info. rewrite <- Hmax. by simplify_map_eq.
  - exists (index_min pd), (Z.of_nat (length ((w :: ws).*2))).
    split_and!.
    + unfold add_period_info. by simplify_map_eq.
    + lia.
    + lia.
    + unfold add_period_info, calculate_statistics. simpl.
      by simplify_map_eq.
    + simpl. lia.
Qed.

Lemma calculate_multi_timeframe_stats_records_witness :
  is_ok (calculate_multi_timeframe_stats minus_years false floor_sqrt
           sparse_prices) = true /\
  exists stats,
    getlabel sparse_timeframe_stats "3yr" = Some stats /\
    dom stats = timeframe_record_keys /\
    stats !! "data_end" = Some (VTimestamp (index_max sparse_prices)).
Proof.
  assert (is_ok (calculate_multi_timeframe_stats minus_years false floor_sqrt
                   sparse_prices) = true) as Hok by (vm_compute; reflexivity).
  split; [exact Hok|].
  pose proof (is_ok_unwrap [] _ Hok) as H.
  fold sparse_timeframe_stats in H.
  pose proof (getlabel_present sparse_timeframe_stats "3yr"
                ltac:(vm_compute; reflexivity)) as E.
  pose proof (getlabel_Some_elem _ _ _ E) as Hin.
  exists (default ∅ (getlabel sparse_timeframe_stats "3yr")).
  destruct (calculate_multi_timeframe_stats_records _ _ _ _ _ _ _ H Hin)
    as (H1 & H2 & _).
  split_and!; [exact E | exact H1 | exact H2].
Defined.
(** ** What the aggregator raises *)

Section TimeframeErrors.

Variable date_offset_years : Z -> Z -> result Z.
Variable pct_change_pad : bool.
Variable np_sqrt : Q -> Q.

Let body := timeframe_body date_offset_years pct_change_pad np_sqrt.

Lemma get_timeframe_data_Raise full_data years e :
  get_timeframe_data date_offset_years full_data years = Raise e <->
  full_data <> [] /\
  exists n, years = Some n /\
            date_offset_years (index_max full_data) n = Raise e.
Proof.
  destruct full_data as [|x df].
  - split; [discriminate | by intros [? _]].
  - destruct years as [n|].
    + unfold get_timeframe_data.
      destruct (date_offset_years (index_max (x :: df)) n) as [s|e'] eqn:E.
      * split; [discriminate|]. intros [_ (n' & [= <-] & H)]. congruence.
      * split.
        -- intros [= ->]. split; [done|]. by exists n.
        -- intros [_ (n' & [= <-] & H)]. simpl. congruence.
    + split; [discriminate|]. by intros [_ (n & ? & _)].
Qed.

(** One period raises what its slice raises, and nothing else. *)
Lemma timeframe_body_cases full_data acc label years :
  match get_timeframe_data date_offset_years full_data years with
  | Raise e => body full_data acc (label, years) = Raise e
  | Ok _ => exists acc', body full_data acc (label, years) = Ok acc'
  end.
Proof.
  unfold body, timeframe_body.
  destruct (get_timeframe_data date_offset_years full_data years)
    as [pd|e]; [|done].
  simpl. destruct pd as [|r rest]; [by eexists|].
  destruct (calculate_weekly_returns pct_change_pad (r :: rest));
    by eexists.
Qed.

Lemma for_each_body_Raise full_data tfs :
  forall acc,
  (forall e, for_each (body full_data) acc tfs = Raise e ->
     exists label years,
       (label, years) ∈ tfs /\
       get_timeframe_data date_offset_years full_data years = Raise e) /\
  (forall label years e,
     (label, years) ∈ tfs ->
     get_timeframe_data date_offset_years full_data years = Raise e ->
     exists e', for_each (body full_data) acc tfs = Raise e').
Proof.
  induction tfs as [|[label0 years0] tfs IH]; intros acc.
  - split; [discriminate|]. by intros ? ? ? ?%elem_of_nil.
  - pose proof (timeframe_body_cases full_data acc label0 years0) as Hc.
    cbn [for_each].
    destruct (get_timeframe_data date_offset_years full_data years0)
      as [pd|e0] eqn:E0.
    + destruct Hc as (acc' & ->). simpl.
      destruct (IH acc') as [IH1 IH2]. split.
      * intros e He. destruct (IH1 e He) as (l & y & Hin & Hy).
        exists l, y. split; [by right | done].
      * intros l y e [[= -> ->]|Hin]%elem_of_cons Hy; [congruence|].
        by eapply IH2.
    + rewrite Hc. simpl. split.
      * intros e [= <-]. exists label0, years0. split; [left | done].
      * intros. by eexists.
Qed.

End TimeframeErrors.

(** X13.  On an empty frame calculate_multi_timeframe_stats returns the
    empty dict without computing an offset.  It raises an exception exactly
    when the frame is not empty and the date offset of 10, 5, 3 or 1 years
    from the latest date raises, and every exception it raises is one that
    such an offset raised: the statistics themselves never raise. *)
Theorem calculate_multi_timeframe_stats_raises
    (date_offset_years : Z -> Z -> result Z) (pct_change_pad : bool)
    (np_sqrt : Q -> Q) (full_data : frame) :
  calculate_multi_timeframe_stats date_offset_years pct_change_pad np_sqrt []
    = Ok [] /\
  ((exists e, calculate_multi_timeframe_stats date_offset_years
                pct_change_pad np_sqrt full_data = Raise e) <->
   full_data <> [] /\
   exists n e, n ∈ [10; 5; 3; 1] /\
               date_offset_years (index_max full_data) n = Raise e) /\
  (forall e,
     calculate_multi_timeframe_stats date_offset_years pct_change_pad np_sqrt
       full_data = Raise e ->
     exists n, n ∈ [10; 5; 3; 1] /\
               date_offset_years (index_max full_data) n = Raise e).
Proof.
  destruct (for_each_body_Raise date_offset_years pct_change_pad np_sqrt
              full_data timeframes []) as [H1 H2].
  fold (calculate_multi_timeframe_stats date_offset_years pct_change_pad
          np_sqrt full_data) in H1, H2.
  assert (forall e,
     calculate_multi_timeframe_stats date_offset_years pct_change_pad np_sqrt
       full_data = Raise e ->
     full_data <> [] /\
     exists n, n ∈ [10; 5; 3; 1] /\
               date_offset_years (index_max full_data) n = Raise e) as Hr.
  { intros e He. destruct (H1 e He) as (l & y & Hin & Hy).
    apply get_timeframe_data_Raise in Hy as (Hne & n & -> & Hn).
    split; [done|]. exists n. split; [|done].
    unfold timeframes in Hin. rewrite !elem_of_cons in Hin.
    rewrite !elem_of_cons.
    destruct Hin as [[= _ <-]|[[= _ <-]|[[= _ <-]|[[= _ <-]|[[=]|Hin]]]]];
      [tauto | tauto | tauto | tauto | by apply elem_of_nil in Hin]. }
  split_and!.
  - reflexivity.
  - split.
    + intros [e He]. destruct (Hr e He) as (Hne & n & Hn & Hd).
      split; [done|]. by exists n, e.
    + intros (Hne & n & e & Hn & Hd).
      assert (exists label, (label, Some n) ∈ timeframes) as [label Hin].
      { rewrite !elem_of_cons in Hn.
        destruct Hn as [->|[->|[->|[->|Hn]]]];
          [exists "10yr" | exists "5yr" | exists "3yr" | exists "1yr"
           | by apply elem_of_nil in Hn];
          unfold timeframes; rewrite !elem_of_cons; tauto. }
      apply (H2 label (Some n) e Hin).
      apply get_timeframe_data_Raise. split; [done|]. by exists n.
  - intros e He. by destruct (Hr e He).
Qed.
(** ** From the closes to the projection *)



(** ** Successive horizons *)

(** X15.  Projections over successive horizons agree: for a finite price
    and a finite average, projecting j weeks from the expected price of
    the k-week projection gives the expected price of the (k + j)-week
    projection (as exact values), whatever the days on which the three
    projections are made. *)
Theorem predict_future_week_price_horizons
    (t1 t2 t3 : datetime) (pq : Q) (stats : dict) (k j : Z) (v : pyval)
    (a : Q) (r1 r3 : dict) :
  stats !! "average" = Some v -> as_float v = Ok (Fin a) ->
  1 <= k -> 1 <= j ->
  predict_future_week_price t1 (Fin pq) stats k = Ok r1 ->
  predict_future_week_price t3 (Fin pq) stats (k + j) = Ok r3 ->
  exists e1 e3,
    r1 !! "expected_price" = Some (VFloat (Fin e1)) /\
    r3 !! "expected_price" = Some (VFloat (Fin e3)) /\
    forall r2,
      predict_future_week_price t2 (Fin e1) stats j = Ok r2 ->
      exists e2,
        r2 !! "expected_price" = Some (VFloat (Fin e2)) /\ (e2 == e3)%Q.
Proof.
  intros Hv Ha Hk Hj H1 H3.
  destruct (predict_future_week_price_Ok _ _ _ _ _ _ Hv Hk H1)
    as (a1 & ? & ? & ? & ? & Ha1 & _ & _ & _ & _ & _ & Hr1).
  assert (1 <= k + j) as Hkj by lia.
  destruct (predict_future_week_price_Ok _ _ _ _ _ _ Hv Hkj H3)
    as (a3 & ? & ? & ? & ? & Ha3 & _ & _ & _ & _ & _ & Hr3).
  cbv zeta in Hr1, Hr3.
  assert (a1 = Fin a) as -> by congruence.
  assert (a3 = Fin a) as -> by congruence.
  exists (pq * (1 + a / 100) ^ k)%Q, (pq * (1 + a / 100) ^ (k + j))%Q.
  split; [rewrite Hr1; reflexivity|].
  split; [rewrite Hr3; reflexivity|].
  intros r2 H2.
  destruct (predict_future_week_price_Ok _ _ _ _ _ _ Hv Hj H2)
    as (a2 & ? & ? & ? & ? & Ha2 & _ & _ & _ & _ & _ & Hr2).
  cbv zeta in Hr2.
  assert (a2 = Fin a) as -> by congruence.
  exists (pq * (1 + a / 100) ^ k * (1 + a / 100) ^ j)%Q.
  split; [rewrite Hr2; reflexivity|].
  rewrite Qpower_plus' by lia. ring.
Qed.

Lemma predict_future_week_price_horizons_witness :
  is_ok (predict_future_week_price sample_today (Fin 100) sample_stats 4)
    = true /\
  is_ok (predict_future_week_price sample_today (Fin 100) sample_stats (4 + 1))
    = true /\
  exists e1 e3,
    sample_projection !! "expected_price" = Some (VFloat (Fin e1)) /\
    unwrap ∅ (predict_future_week_price sample_today (Fin 100) sample_stats
                (4 + 1)) !! "expected_price" = Some (VFloat (Fin e3)) /\
    forall r2,
      predict_future_week_price sample_today (Fin e1) sample_stats 1 = Ok r2 ->
      exists e2,
        r2 !! "expected_price" = Some (VFloat (Fin e2)) /\ (e2 == e3)%Q.
Proof.
  assert (is_ok (predict_future_week_price sample_today (Fin 100)
                   sample_stats 4) = true) as O1 by (vm_compute; reflexivity).
  assert (is_ok (predict_future_week_price sample_today (Fin 100)
                   sample_stats (4 + 1)) = true) as O3
    by (vm_compute; reflexivity).
  split; [exact O1|]. split; [exact O3|].
  exact (predict_future_week_price_horizons sample_today sample_today
           sample_today 100%Q sample_stats 4 1 (VFloat (Fin 2)) 2%Q
           sample_projection _ eq_refl eq_refl ltac:(lia) ltac:(lia)
           (is_ok_unwrap ∅ _ O1) (is_ok_unwrap ∅ _ O3)).
Defined.

(** * The number format *)

Lemma py_truediv_Fin (x b : Q) :
  Qeq_bool b 0 = false -> py_truediv (Fin x) (Fin b) = Ok (Fin (x / b)).
Proof. intros H. unfold py_truediv, fdiv. by rewrite H. Qed.




(** The literals of the thresholds, written out for [lra]. *)
Ltac units :=
  change 1e12%Q with 1000000000000%Q in *;
  change 1e9%Q with 1000000000%Q in *;
  change 1e6%Q with 1000000%Q in *;
  change 1e3%Q with 1000%Q in *;
  change 999995e3%Q with 999995000%Q in *;
  change 999995e6%Q with 999995000000%Q in *.



Lemma round_half_even_near (x : Q) (n : Z) :
  (inject_Z n - (1 # 2) < x)%Q -> (x < inject_Z n + (1 # 2))%Q ->
  round_half_even x = n.
Proof.
  destruct x as [a d]. unfold Qlt, round_half_even. simpl.
  intros H1 H2.
  assert (0 < Z.pos d) as Hd by lia.
  set (D := Z.pos d) in *.
  assert ((2 * n - 1) * D < 2 * a) as L1 by lia.
  assert (2 * a < (2 * n + 1) * D) as L2 by lia.
  clear H1 H2.
  pose proof (Z.div_mod a D ltac:(lia)) as Hdm.
  pose proof (Z.mod_pos_bound a D Hd) as Hb.
  set (f := a / D) in *. set (r := a `mod` D) in *.
  assert (f = n \/ f = n - 1) as Hf by nia.
  destruct (2 * r <? D) eqn:C1.
  - apply Z.ltb_lt in C1. nia.
  - apply Z.ltb_ge in C1. destruct (D <? 2 * r) eqn:C2.
    + apply Z.ltb_lt in C2. nia.
    + apply Z.ltb_ge in C2. exfalso. nia.
Qed.

Lemma format_2f_carry (m : Q) :
  (999995 # 1000 < m)%Q -> (m < 1000)%Q -> format_2f (Fin m) = "1000.00".
Proof.
  intros H1 H2. unfold format_2f.
  assert (Qle_bool 0 m = true) as -> by (apply Qle_bool_iff; lra).
  cbn [negb].
  rewrite (round_half_even_near (m * 100) 100000);
    [reflexivity | |].
  - change (inject_Z 100000) with (100000 # 1)%Q. lra.
  - change (inject_Z 100000) with (100000 # 1)%Q. lra.
Qed.

(** X17.  A number just below a threshold is printed with the mantissa
    1000.00 and the suffix of the range below: every finite number above
    999.995 units and below 1000 units is shown as $1000.00 followed by
    the suffix of that unit, for the units 1, 10^3, 10^6 and 10^9. *)
Theorem format_large_number_carry (q : Q) :
  ((999995 # 1000 < q)%Q -> (q < 1000)%Q ->
   format_large_number (Some (Fin q)) = Ok "$1000.00") /\
  ((999995 < q)%Q -> (q < 1e6)%Q ->
   format_large_number (Some (Fin q)) = Ok "$1000.00K") /\
  ((999995e3 < q)%Q -> (q < 1e9)%Q ->
   format_large_number (Some (Fin q)) = Ok "$1000.00M") /\
  ((999995e6 < q)%Q -> (q < 1e12)%Q ->
   format_large_number (Some (Fin q)) = Ok "$1000.00B").
Proof.
  assert (forall a b : Q, (b < a)%Q -> Qle_bool a b = false) as Hf.
  { intros a b H. destruct (Qle_bool a b) eqn:E; [|done].
    apply Qle_bool_iff in E. lra. }
  assert (forall a b : Q, (a < b)%Q -> Qle_bool a b = true) as Ht.
  { intros a b H. apply Qle_bool_iff. lra. }
  unfold format_large_number. cbn [fle]. split_and!; intros H1 H2.
  - rewrite !Hf by (units; lra). by rewrite format_2f_carry.
  - rewrite (Hf 1e12%Q), (Hf 1e9%Q), (Hf 1e6%Q), (Ht 1e3%Q) by (units; lra).
    rewrite py_truediv_Fin by reflexivity. cbn [mbind result_bind].
    rewrite format_2f_carry; [reflexivity | |].
    + apply Qlt_shift_div_l; [reflexivity | units; lra].
    + apply Qlt_shift_div_r; [reflexivity | units; lra].
  - rewrite (Hf 1e12%Q), (Hf 1e9%Q), (Ht 1e6%Q) by (units; lra).
    rewrite py_truediv_Fin by reflexivity. cbn [mbind result_bind].
    rewrite format_2f_carry; [reflexivity | |].
    + apply Qlt_shift_div_l; [reflexivity | units; lra].
    + apply Qlt_shift_div_r; [reflexivity | units; lra].
  - rewrite (Hf 1e12%Q), (Ht 1e9%Q) by (units; lra).
    rewrite py_truediv_Fin by reflexivity. cbn [mbind result_bind].
    rewrite format_2f_carry; [reflexivity | |].
    + apply Qlt_shift_div_l; [reflexivity | units; lra].
    + apply Qlt_shift_div_r; [reflexivity | units; lra].
Qed.

Lemma format_large_number_carry_witness :
  (999995 < 999999)%Q /\ (999999 < 1e6)%Q /\
  format_large_number (Some (Fin 999999)) = Ok "$1000.00K".
Proof.
  assert (999995 < 999999)%Q as H1 by reflexivity.
  assert (999999 < 1e6)%Q as H2 by reflexivity.
  split; [exact H1|]. split; [exact H2|].
  exact (proj1 (proj2 (format_large_number_carry 999999)) H1 H2).
Defined.
